(** * The leveled logging facade of [src/pages/_app.tsx] (module [@/logging])

    A shallow embedding of the logging module: the severity table, the
    record formatters, the three pino configurations, the environment
    test of [createLogger], the [Logger] class with its [ColorLogger]
    subclass, and the statements executed when the module is loaded.

    Conventions.
    - JavaScript strings are [string]; the model is exact for ASCII text.
    - A JavaScript exception is the [Throw] case of [Result].
    - [process.env] is an association list in key order.
    - What belongs to the pino library and to [./logging-dev] is not part
      of the source file; each such point is marked where it is used. *)

From Stdlib Require Import String Ascii List ZArith Bool Lia DecimalString.
Import ListNotations.
Local Open Scope string_scope.
Local Open Scope Z_scope.
Set Warnings "-register-all".

(** ** JavaScript primitives used by the module *)

Module Js.

(** Outcome of evaluating an expression that may raise. *)
Inductive Exn : Type :=
| ReferenceError (ident : string)
| TypeError (what : string)
| Raised (what : string).

Inductive Result (A : Type) : Type :=
| Ok (a : A)
| Throw (e : Exn).
Arguments Ok {A} a.
Arguments Throw {A} e.

Definition bind {A B : Type} (r : Result A) (k : A -> Result B) : Result B :=
  match r with
  | Ok a => k a
  | Throw e => Throw e
  end.

(** Truthiness of a string and of a possibly undefined string. *)
Definition truthy (s : string) : bool :=
  match s with
  | EmptyString => false
  | String _ _ => true
  end.

Definition truthy_opt (o : option string) : bool :=
  match o with
  | Some s => truthy s
  | None => false
  end.

(** [s.startsWith(p)] *)
Fixpoint startsWith (p s : string) : bool :=
  match p, s with
  | EmptyString, _ => true
  | String a p', String b s' => Ascii.eqb a b && startsWith p' s'
  | String _ _, EmptyString => false
  end.

(** [s.includes(p)] *)
Fixpoint includes (p s : string) : bool :=
  startsWith p s ||
  match s with
  | EmptyString => false
  | String _ s' => includes p s'
  end.

(** Property read [o.k] / [o[k]] on an object given by its own
    properties in insertion order; [None] is [undefined]. *)
Fixpoint get {V : Type} (k : string) (o : list (string * V)) : option V :=
  match o with
  | [] => None
  | (k', v) :: o' => if String.eqb k k' then Some v else get k o'
  end.

(** [Object.keys(o)] *)
Definition keys {V : Type} (o : list (string * V)) : list string :=
  map fst o.

(** [xs.includes(x)] on an array of strings. *)
Definition array_includes (x : string) (xs : list string) : bool :=
  existsb (String.eqb x) xs.

(** Property names every object literal inherits from
    [Object.prototype]. *)
Definition Object_prototype_names : list string :=
  [ "constructor"; "__defineGetter__"; "__defineSetter__"; "hasOwnProperty";
    "__lookupGetter__"; "__lookupSetter__"; "isPrototypeOf";
    "propertyIsEnumerable"; "toString"; "valueOf"; "__proto__";
    "toLocaleString" ].

(** [k in o] for an object literal [o]: own properties first, then the
    prototype chain, which for a literal is [Object.prototype]. *)
Definition has_property {V : Type} (k : string) (o : list (string * V)) : bool :=
  array_includes k (keys o) || array_includes k Object_prototype_names.

End Js.

Import Js.

Declare Scope js_scope.
Notation "x <- r ;; k" := (Js.bind r (fun x => k))
  (at level 61, r at next level, right associativity) : js_scope.
Local Open Scope js_scope.

(** ** Severity scale *)

(** The keys of [LOG_LEVELS], i.e. the type [LogLevel]. *)
Inductive LogLevel : Type :=
| Trace | Debug | Details | Log | Info | Warn | Error | Critical.

Definition LogLevel_eqb (a b : LogLevel) : bool :=
  match a, b with
  | Trace, Trace | Debug, Debug | Details, Details | Log, Log
  | Info, Info | Warn, Warn | Error, Error | Critical, Critical => true
  | _, _ => false
  end.

Definition all_levels : list LogLevel :=
  [Trace; Debug; Details; Log; Info; Warn; Error; Critical].

Definition label (l : LogLevel) : string :=
  match l with
  | Trace => "trace"
  | Debug => "debug"
  | Details => "details"
  | Log => "log"
  | Info => "info"
  | Warn => "warn"
  | Error => "error"
  | Critical => "critical"
  end.

(** [export const LOG_LEVELS = { trace: 10, ... } as const] *)
Definition LOG_LEVELS : list (string * Z) :=
  [ ("trace", 10); ("debug", 20); ("details", 25); ("log", 30);
    ("info", 35); ("warn", 40); ("error", 50); ("critical", 60) ].

(** [const levelToShort = { 10: "TRC", ... } as const] *)
Definition levelToShort : list (Z * string) :=
  [ (10, "TRC"); (20, "DBG"); (25, "DTL"); (30, "LOG");
    (35, "INF"); (40, "WRN"); (50, "ERR"); (60, "CRT") ].

Fixpoint getZ {V : Type} (k : Z) (o : list (Z * V)) : option V :=
  match o with
  | [] => None
  | (k', v) :: o' => if Z.eqb k k' then Some v else getZ k o'
  end.

(** [LOG_LEVELS[l]] for a key [l] of the table. *)
Definition weight (l : LogLevel) : Z :=
  match Js.get (label l) LOG_LEVELS with
  | Some w => w
  | None => 0
  end.

(** Strictly increasing sequences of integers. *)
Fixpoint strictly_increasing (ws : list Z) : Prop :=
  match ws with
  | [] => True
  | w :: ws' =>
      match ws' with
      | [] => True
      | w' :: _ => w < w' /\ strictly_increasing ws'
      end
  end.

(** ** Structured values and [JSON.stringify]

    The variadic [...args: unknown[]] carry arbitrary values. The model
    covers the values on which [JSON.stringify] returns without raising
    and prints exactly what is modelled here: [undefined], [null],
    booleans, safe integers, strings, arrays and plain objects with their
    properties in insertion order. Cyclic structures and BigInt values,
    on which it raises a TypeError, and numbers outside the safe integers
    are not values of this type. *)

(** [Number.MAX_SAFE_INTEGER] *)
Definition MAX_SAFE_INTEGER : Z := 9007199254740991.

(** An integer [n] with [Number.isSafeInteger(n)]. *)
Record SafeInteger : Type := {
  int_value : Z;
  int_safe : (Z.abs int_value <=? MAX_SAFE_INTEGER) = true
}.

Inductive JsValue : Type :=
| JUndefined
| JNull
| JBool (b : bool)
| JNum (n : SafeInteger)
| JStr (s : string)
| JArr (xs : list JsValue)
| JObj (ps : list (string * JsValue)).

Module Json.

Definition dquote : string := String "034"%char EmptyString.
Definition newline : string := String "010"%char EmptyString.

Definition hex_digit (n : nat) : ascii :=
  nth n [ "0"; "1"; "2"; "3"; "4"; "5"; "6"; "7"; "8"; "9";
          "a"; "b"; "c"; "d"; "e"; "f" ]%char "0"%char.

(** One code unit of [QuoteJSONString]. *)
Definition quote_char (c : ascii) : string :=
  let n := nat_of_ascii c in
  if Nat.eqb n 8 then "\b"
  else if Nat.eqb n 9 then "\t"
  else if Nat.eqb n 10 then "\n"
  else if Nat.eqb n 12 then "\f"
  else if Nat.eqb n 13 then "\r"
  else if Nat.eqb n 34 then "\" ++ dquote
  else if Nat.eqb n 92 then "\\"
  else if Nat.ltb n 32 then
    "\u00" ++ String (hex_digit (Nat.div n 16))
               (String (hex_digit (Nat.modulo n 16)) EmptyString)
  else String c EmptyString.

Fixpoint quote_chars (s : string) : string :=
  match s with
  | EmptyString => EmptyString
  | String c s' => quote_char c ++ quote_chars s'
  end.

Definition quote (s : string) : string := dquote ++ quote_chars s ++ dquote.

(** Decimal digits of an integer. *)
Definition decimal (n : Z) : string :=
  NilZero.string_of_int (Z.to_int n).

(** [Number::toString] on a safe integer. *)
Definition number_to_string (n : SafeInteger) : string :=
  decimal (int_value n).

(** [partial.join(sep)] *)
Fixpoint join (sep : string) (parts : list string) : string :=
  match parts with
  | [] => EmptyString
  | [p] => p
  | p :: ps => p ++ sep ++ join sep ps
  end.

(** Wrapping of the serialized members of an array or object. *)
Definition wrap (opening closing gap stepback indent : string)
    (parts : list string) : string :=
  match parts with
  | [] => opening ++ closing
  | _ :: _ =>
      if Js.truthy gap
      then opening ++ newline ++ indent
             ++ join ("," ++ newline ++ indent) parts
             ++ newline ++ stepback ++ closing
      else opening ++ join "," parts ++ closing
  end.

(** [SerializeJSONProperty]: [None] is [undefined]. *)
Fixpoint serialize (gap indent : string) (v : JsValue) {struct v}
    : option string :=
  match v with
  | JUndefined => None
  | JNull => Some "null"
  | JBool b => Some (if b then "true" else "false")
  | JNum n => Some (number_to_string n)
  | JStr s => Some (quote s)
  | JArr xs =>
      let inner := indent ++ gap in
      let parts :=
        (fix elements (l : list JsValue) : list string :=
           match l with
           | [] => []
           | x :: l' =>
               match serialize gap inner x with
               | Some s => s
               | None => "null"
               end :: elements l'
           end) xs in
      Some (wrap "[" "]" gap indent inner parts)
  | JObj ps =>
      let inner := indent ++ gap in
      let parts :=
        (fix members (l : list (string * JsValue)) : list string :=
           match l with
           | [] => []
           | (k, x) :: l' =>
               match serialize gap inner x with
               | Some s =>
                   (quote k ++ ":" ++ (if Js.truthy gap then " " else EmptyString) ++ s)
                     :: members l'
               | None => members l'
               end
           end) ps in
      Some (wrap "{" "}" gap indent inner parts)
  end.

Fixpoint spaces (n : nat) : string :=
  match n with
  | O => EmptyString
  | S n' => " " ++ spaces n'
  end.

(** [JSON.stringify(v, null, space)] for a numeric [space]. *)
Definition stringify (v : JsValue) (space : nat) : option string :=
  serialize (spaces (Nat.min 10 space)) EmptyString v.

(** On an array the result is always a string. *)
Definition stringify_array (xs : list JsValue) (space : nat) : string :=
  match stringify (JArr xs) space with
  | Some s => s
  | None => EmptyString
  end.

End Json.

(** ** Record formatter *)

Definition Bindings : Type := list (string * JsValue).

(** The value of a record's [level] field. *)
Inductive LevelField : Type :=
| LevelText (code : string)
| LevelNumber (w : Z)
| LevelUndefined
| LevelAbsent.

Definition prop (k : string) (b : Bindings) : JsValue :=
  match Js.get k b with
  | Some v => v
  | None => JUndefined
  end.

(** [formatters.bindings] *)
Definition formatters_bindings (bindings : Bindings) : Bindings :=
  [ ("name", prop "name" bindings);
    ("pid", prop "pid" bindings);
    ("hostname", prop "hostname" bindings) ].

(** [formatters.level]: the value it gives to the [level] field. *)
Definition formatters_level (lbl : string) : LevelField :=
  if Js.array_includes lbl (Js.keys LOG_LEVELS)
  then match Js.get lbl LOG_LEVELS with
       | Some w =>
           match getZ w levelToShort with
           | Some code => LevelText code
           | None => LevelUndefined
           end
       | None => LevelUndefined
       end
  else LevelText "UNK".

(** [baseConfig.timestamp], given the clock's [toISOString()]. *)
Definition timestamp_fragment (iso : string) : string :=
  "," ++ Json.dquote ++ "time" ++ Json.dquote ++ ":"
      ++ Json.dquote ++ iso ++ Json.dquote.

(** ** The pino configurations *)

Record Formatters : Type := {
  fmt_bindings : option (Bindings -> Bindings);
  fmt_level : option (string -> LevelField)
}.

Record BrowserOptions : Type := { asObject : bool }.

(** [pino.LoggerOptions]; an absent property is [None]. *)
Record LoggerOptions : Type := {
  customLevels : option (list (string * Z));
  useOnlyCustomLevels : bool;
  formatters : option Formatters;
  timestamp : option (string -> string);
  level : option string;
  browser : option BrowserOptions
}.

Definition formatters_obj : Formatters :=
  {| fmt_bindings := Some formatters_bindings;
     fmt_level := Some formatters_level |}.

Definition baseConfig : LoggerOptions :=
  {| customLevels := Some LOG_LEVELS;
     useOnlyCustomLevels := true;
     formatters := Some formatters_obj;
     timestamp := Some timestamp_fragment;
     level := None;
     browser := None |}.

Definition Env : Type := list (string * string).

(** [process.env.LOG_LEVEL && process.env.LOG_LEVEL in LOG_LEVELS
      ? process.env.LOG_LEVEL : fallback] *)
Definition level_from_env (env : Env) (fallback : string) : string :=
  match Js.get "LOG_LEVEL" env with
  | Some v =>
      if Js.truthy v && Js.has_property v LOG_LEVELS then v else fallback
  | None => fallback
  end.

Definition devConfig (env : Env) : LoggerOptions :=
  {| customLevels := customLevels baseConfig;
     useOnlyCustomLevels := useOnlyCustomLevels baseConfig;
     formatters := Some {| fmt_bindings := fmt_bindings formatters_obj;
                           fmt_level := None |};
     timestamp := timestamp baseConfig;
     level := Some (level_from_env env "details");
     browser := browser baseConfig |}.

Definition prodConfig (env : Env) : LoggerOptions :=
  {| customLevels := customLevels baseConfig;
     useOnlyCustomLevels := useOnlyCustomLevels baseConfig;
     formatters := formatters baseConfig;
     timestamp := timestamp baseConfig;
     level := Some (level_from_env env "info");
     browser := browser baseConfig |}.

Definition browserConfig : LoggerOptions :=
  {| customLevels := Some LOG_LEVELS;
     useOnlyCustomLevels := true;
     formatters := None;
     timestamp := None;
     level := None;
     browser := Some {| asObject := false |} |}.

(** The three configuration objects, compared by identity in
    [config === devConfig]. *)
Inductive ConfigRef : Type :=
| BrowserConfig
| ProdConfig
| DevConfig.

Definition ConfigRef_eqb (a b : ConfigRef) : bool :=
  match a, b with
  | BrowserConfig, BrowserConfig | ProdConfig, ProdConfig
  | DevConfig, DevConfig => true
  | _, _ => false
  end.

(** [===] between a possibly undefined string and a string literal. *)
Definition strict_eq (o : option string) (s : string) : bool :=
  match o with
  | Some v => String.eqb v s
  | None => false
  end.

(** ** Ambient runtime *)

Definition Stream : Type := string.

Record Process : Type := { env : option Env }.

(** What the module can observe of the runtime it runs in:
    the globals [window], [document], [navigator] (with its
    [userAgent]) and [process], and the outcome of calling
    [createPrettyLogStream()], which is imported from [./logging-dev]
    and is not part of the source file. *)
Record Ambient : Type := {
  window : bool;
  document : bool;
  navigator : option string;
  process : option Process;
  createPrettyLogStream : Result Stream
}.

Definition defined {A : Type} (o : option A) : bool :=
  match o with
  | Some _ => true
  | None => false
  end.

(** Evaluation of [process.env]. *)
Definition process_env (a : Ambient) : Result Env :=
  match process a with
  | None => Throw (ReferenceError "process")
  | Some p =>
      match env p with
      | None => Throw (TypeError "process.env")
      | Some e => Ok e
      end
  end.

(** The module-level constants computed from [process.env]. *)
Record Consts : Type := {
  the_devConfig : LoggerOptions;
  the_prodConfig : LoggerOptions;
  envConfig : ConfigRef;
  slackWebhookUrl : option string
}.

Definition consts_of (e : Env) : Consts :=
  {| the_devConfig := devConfig e;
     the_prodConfig := prodConfig e;
     envConfig := if strict_eq (Js.get "NODE_ENV" e) "production"
                  then ProdConfig else DevConfig;
     slackWebhookUrl :=
       match Js.get "SLACK_WEBHOOK_URL" e with
       | Some u => if Js.truthy u then Some u else None
       | None => None
       end |}.

Definition load_consts (a : Ambient) : Result Consts :=
  e <- process_env a ;; Ok (consts_of e).

Definition deref (K : Consts) (c : ConfigRef) : LoggerOptions :=
  match c with
  | BrowserConfig => browserConfig
  | ProdConfig => the_prodConfig K
  | DevConfig => the_devConfig K
  end.

(** ** [createLogger] *)

Definition isRealBrowser (a : Ambient) : bool :=
  window a && document a &&
  match navigator a with
  | Some userAgent => negb (Js.includes "Node.js" userAgent)
  | None => false
  end &&
  negb (defined (process a)).

(** [process.env?.NEXT_RUNTIME] and [process.env || {}] once [process]
    is known to be defined. *)
Definition env_or_empty (p : Process) : Env :=
  match env p with
  | Some e => e
  | None => []
  end.

Definition isNextJS (a : Ambient) : bool :=
  (window a && defined (process a)) ||
  match process a with
  | Some p => Js.truthy_opt (Js.get "NEXT_RUNTIME" (env_or_empty p))
  | None => false
  end ||
  match process a with
  | Some p => existsb (Js.startsWith "NEXT_PUBLIC_") (Js.keys (env_or_empty p))
  | None => false
  end.

(** The [if (isRealBrowser) ... else if ... else ...] of [createLogger]. *)
Definition select_config (a : Ambient) : Result ConfigRef :=
  let isRealBrowser := isRealBrowser a in
  let isNextJS := isNextJS a in
  if isRealBrowser then Ok BrowserConfig
  else
    e <- process_env a ;;
    if strict_eq (Js.get "NODE_ENV" e) "production"
    then Ok ProdConfig
    else Ok DevConfig.

(** A pino logger instance: the options it was created with, the
    destination stream if one was passed, and its bindings. *)
Record PinoLogger : Type := {
  options : LoggerOptions;
  destination : option Stream;
  bindings : Bindings
}.

(** [pino(options, destination)] for options whose level is absent or a
    key of the custom levels. On any other level the library raises
    ("default level ... must be included in custom levels"); statements
    about failures of construction keep to the former. *)
Definition pino (o : LoggerOptions) (dest : option Stream) : PinoLogger :=
  {| options := o; destination := dest; bindings := [] |}.

Definition child (l : PinoLogger) (b : Bindings) : PinoLogger :=
  {| options := options l; destination := destination l;
     bindings := (bindings l ++ b)%list |}.

(** [level || config.level] *)
Definition level_or (lvl cfg : option string) : option string :=
  if Js.truthy_opt lvl then lvl else cfg.

(** [{ ...config, level: level || config.level }] *)
Definition with_level (config : LoggerOptions) (lvl : option string)
    : LoggerOptions :=
  {| customLevels := customLevels config;
     useOnlyCustomLevels := useOnlyCustomLevels config;
     formatters := formatters config;
     timestamp := timestamp config;
     level := level_or lvl (level config);
     browser := browser config |}.

Definition createLogger (K : Consts) (a : Ambient) (name : string)
    (lvl : option string) : Result PinoLogger :=
  ref <- select_config a ;;
  let config := deref K ref in
  logger <-
    (if ConfigRef_eqb ref DevConfig && negb (window a)
     then stream <- createPrettyLogStream a ;;
          Ok (pino (with_level config lvl) (Some stream))
     else Ok (pino (with_level config lvl) None)) ;;
  Ok (child logger [("name", JStr name)]).

(** ** What a pino logger writes

    The level gate and the default level formatter belong to the pino
    library: a level method writes a record exactly when the weight of
    its level is not below the weight of the logger's threshold, the
    threshold defaults to ["info"] when the options give none, and
    without a [level] formatter the record carries the numeric weight.
    With [browser: { asObject: false }], the only browser options the
    module has, no record object is built: the bindings, the message and
    the arguments go to the console method of the level, and the output
    has no level field ([LevelAbsent]). *)

Definition threshold (l : PinoLogger) : string :=
  match level (options l) with
  | Some s => s
  | None => "info"
  end.

Definition levelVal (l : PinoLogger) : option Z :=
  match customLevels (options l) with
  | Some table => Js.get (threshold l) table
  | None => None
  end.

Definition isLevelEnabled (lg : PinoLogger) (l : LogLevel) : bool :=
  match levelVal lg with
  | Some t => t <=? weight l
  | None => false
  end.

Definition as_console_arguments (o : LoggerOptions) : bool :=
  match browser o with
  | Some b => negb (asObject b)
  | None => false
  end.

Definition level_field (o : LoggerOptions) (l : LogLevel) : LevelField :=
  if as_console_arguments o then LevelAbsent
  else
    match formatters o with
    | Some f =>
        match fmt_level f with
        | Some format => format (label l)
        | None => LevelNumber (weight l)
        end
    | None => LevelNumber (weight l)
    end.

Definition formatted_bindings (lg : PinoLogger) : Bindings :=
  match formatters (options lg) with
  | Some f =>
      match fmt_bindings f with
      | Some format => format (bindings lg)
      | None => bindings lg
      end
  | None => bindings lg
  end.

(** ** Observable effects *)

(** A call [logger.<level>(message, ...args)] on a pino logger. *)
Record PinoCall : Type := {
  on_logger : PinoLogger;
  at_level : LogLevel;
  message : string;
  args : list JsValue
}.

Record SlackAttachment : Type := {
  attachment_text : string;
  color : string
}.

Record SlackMessage : Type := {
  text : string;
  attachments : list SlackAttachment
}.

(** The trace of a run: the calls made on pino loggers, the alert
    payload objects that were built, and the deliveries attempted to the
    alert channel (address and payload). *)
Record World : Type := {
  calls : list PinoCall;
  payloads : list SlackMessage;
  dispatches : list (string * SlackMessage)
}.

Definition empty_world : World :=
  {| calls := []; payloads := []; dispatches := [] |}.

(** The message of a record. pino formats the message string with the
    arguments that follow it, printf style, and arguments without a
    placeholder do not appear in the record; that formatting is the
    library's, so the message is kept as the pair it is computed from. *)
Inductive FormattedMessage : Type :=
| Format (template : string) (values : list JsValue).

Record LogRecord : Type := {
  record_level : LevelField;
  record_name : JsValue;
  record_msg : FormattedMessage
}.

Definition record_of (c : PinoCall) : LogRecord :=
  {| record_level := level_field (options (on_logger c)) (at_level c);
     record_name := prop "name" (formatted_bindings (on_logger c));
     record_msg := Format (message c) (args c) |}.

Definition enabled (c : PinoCall) : bool :=
  isLevelEnabled (on_logger c) (at_level c).

(** The records that reach the sink. *)
Definition written (w : World) : list LogRecord :=
  map record_of (filter enabled (calls w)).

(** ** The [Logger] class and its subclass *)

Inductive Class : Type :=
| LoggerClass
| ColorLoggerClass.

Record Logger : Type := {
  class_of : Class;
  logger : PinoLogger;
  name : string;
  isBrowser : bool
}.

(** [Object.keys(xs)] for an array: its indices. *)
Definition array_keys (xs : list JsValue) : list string :=
  map (fun i => Json.decimal (Z.of_nat i)) (seq 0 (List.length xs)).

Module Logger.

(** [constructor(name)]; a subclass without a constructor of its own
    runs the same body. *)
Definition constructor (K : Consts) (a : Ambient) (cls : Class)
    (nm : string) : Result Logger :=
  l <- createLogger K a nm None ;;
  Ok {| class_of := cls; logger := l; name := nm; isBrowser := window a |}.

Definition extend (K : Consts) (a : Ambient) (self : Logger)
    (subname : string) : Result Logger :=
  constructor K a LoggerClass (name self ++ "." ++ subname).

(** [this.logger.<l>(message, ...args)] *)
Definition emit (self : Logger) (l : LogLevel) (msg : string)
    (rest : list JsValue) (w : World) : World :=
  {| calls := (calls w ++
               [ {| on_logger := logger self; at_level := l;
                    message := msg; args := rest |} ])%list;
     payloads := payloads w;
     dispatches := dispatches w |}.

(** The object literal bound to [slackMessage] in [critical]. *)
Definition slackMessage (self : Logger) (msg : string)
    (rest : list JsValue) : SlackMessage :=
  {| text := "[" ++ name self ++ "] CRITICAL: " ++ msg;
     attachments :=
       [ {| attachment_text :=
              if Nat.ltb 0 (List.length (array_keys rest))
              then "```" ++ Json.stringify_array rest 2 ++ "```"
              else "No additional context";
            color := "danger" |} ] |}.

Definition critical (K : Consts) (self : Logger) (msg : string)
    (rest : list JsValue) (w : World) : World :=
  let w1 := emit self Critical msg rest w in
  if Js.truthy_opt (slackWebhookUrl K)
  then
    let slackMessage := slackMessage self msg rest in
    {| calls := calls w1;
       payloads := (payloads w1 ++ [slackMessage])%list;
       dispatches := dispatches w1 |}
  else w1.

Definition error (self : Logger) := emit self Error.
Definition warn (self : Logger) := emit self Warn.
Definition log (self : Logger) := emit self Log.
Definition info (self : Logger) := emit self Info.
Definition details (self : Logger) := emit self Details.
Definition debug (self : Logger) := emit self Debug.
Definition trace (self : Logger) := emit self Trace.

End Logger.

(** The public surface: the eight severity methods and [extend]. *)
Inductive Method : Type :=
| Severity (l : LogLevel)
| Extend.

Inductive Returned : Type :=
| Void
| Instance (o : Logger).

(** A method body: receiver, first argument ([message] or [subname]),
    remaining arguments, and the trace so far. *)
Definition Impl : Type :=
  Consts -> Ambient -> Logger -> string -> list JsValue -> World ->
  Result (Returned * World).

Definition void (f : Logger -> string -> list JsValue -> World -> World) : Impl :=
  fun _ _ self msg rest w => Ok (Void, f self msg rest w).

(** Methods declared in the body of [class Logger]. *)
Definition Logger_prototype (m : Method) : option Impl :=
  match m with
  | Severity Critical => Some (fun K _ self msg rest w =>
                                 Ok (Void, Logger.critical K self msg rest w))
  | Severity Error => Some (void Logger.error)
  | Severity Warn => Some (void Logger.warn)
  | Severity Log => Some (void Logger.log)
  | Severity Info => Some (void Logger.info)
  | Severity Details => Some (void Logger.details)
  | Severity Debug => Some (void Logger.debug)
  | Severity Trace => Some (void Logger.trace)
  | Extend => Some (fun K a self subname _ w =>
                      o <- Logger.extend K a self subname ;;
                      Ok (Instance o, w))
  end.

(** Methods declared in the body of [class ColorLogger]: none. *)
Definition ColorLogger_prototype (m : Method) : option Impl := None.

Definition own_method (c : Class) : Method -> option Impl :=
  match c with
  | LoggerClass => Logger_prototype
  | ColorLoggerClass => ColorLogger_prototype
  end.

(** A class followed by the classes it extends. *)
Definition prototype_chain (c : Class) : list Class :=
  match c with
  | LoggerClass => [LoggerClass]
  | ColorLoggerClass => [ColorLoggerClass; LoggerClass]
  end.

Fixpoint lookup_method (chain : list Class) (m : Method) : option Impl :=
  match chain with
  | [] => None
  | c :: chain' =>
      match own_method c m with
      | Some impl => Some impl
      | None => lookup_method chain' m
      end
  end.

(** [new C(name)] *)
Definition new (K : Consts) (a : Ambient) (c : Class) (nm : string)
    : Result Logger :=
  Logger.constructor K a c nm.

(** [self.m(first, ...rest)] *)
Definition invoke (K : Consts) (a : Ambient) (self : Logger) (m : Method)
    (first : string) (rest : list JsValue) (w : World)
    : Result (Returned * World) :=
  match lookup_method (prototype_chain (class_of self)) m with
  | Some impl => impl K a self first rest w
  | None => Throw (TypeError "not a function")
  end.

(** ** Module evaluation

    The statements at the top level of the module, in order: the
    constants read from [process.env], the default instance, and the
    nine calls that follow it. *)

Definition module_load (a : Ambient) : Result (Consts * Logger * World) :=
  K <- load_consts a ;;
  logger <- new K a LoggerClass "app" ;;
  let w := empty_world in
  let w := Logger.critical K logger "This is a critical log message" [] w in
  let w := Logger.error logger "This is an error log message" [] w in
  let w := Logger.warn logger "This is a warning log message" [] w in
  let w := Logger.log logger "This is a log message" [] w in
  let w := Logger.info logger "This is an info log message" [] w in
  let w := Logger.details logger "This is a details log message" [] w in
  let w := Logger.debug logger "This is a debug log message" [] w in
  let w := Logger.trace logger "This is a trace log message" [] w in
  submodule <- Logger.extend K a logger "submodule" ;;
  let w := Logger.info submodule "This is an info message from a submodule" [] w in
  Ok (K, logger, w).

(** The short display codes in the declared order of the levels. *)
Definition short_codes : list string :=
  ["TRC"; "DBG"; "DTL"; "LOG"; "INF"; "WRN"; "ERR"; "CRT"].

(** The reading of the production-mode signal that the last two branches
    of [createLogger] perform. *)
Definition node_env (a : Ambient) : Result (option string) :=
  e <- process_env a ;; Ok (Js.get "NODE_ENV" e).

(** Count of the records written at level [l] by loggers named [nm]. *)
Definition named (nm : string) (c : PinoCall) : bool :=
  match prop "name" (bindings (on_logger c)) with
  | JStr s => String.eqb s nm
  | _ => false
  end.

Definition emitted_at (w : World) (nm : string) (l : LogLevel) : nat :=
  List.length
    (filter (fun c => LogLevel_eqb (at_level c) l && named nm c && enabled c)
       (calls w)).

(** What identifies a call: the name bound to the logger, the level,
    the message and the arguments. *)
Definition summary (c : PinoCall)
    : JsValue * LogLevel * string * list JsValue :=
  (prop "name" (bindings (on_logger c)), at_level c, message c, args c).

(** The pino logger [createLogger] builds once a configuration is
    selected, with and without a destination stream. *)
Definition built (K : Consts) (ref : ConfigRef) (lvl : option string)
    (dest : option Stream) (nm : string) : PinoLogger :=
  child (pino (with_level (deref K ref) lvl) dest) [("name", JStr nm)].

(** ** Sample runtimes *)

(** A Node.js process started without any of the variables the module
    reads, with the pretty-print stream available. *)
Definition node_dev : Ambient :=
  {| window := false; document := false; navigator := None;
     process := Some {| env := Some [] |};
     createPrettyLogStream := Ok "pino-pretty" |}.

(** The same process when [./logging-dev] cannot build its stream. *)
Definition node_dev_without_pretty : Ambient :=
  {| window := false; document := false; navigator := None;
     process := Some {| env := Some [] |};
     createPrettyLogStream := Throw (Raised "Cannot find module 'pino-pretty'") |}.

(** A production server, plain and hosted by the framework. *)
Definition node_prod : Ambient :=
  {| window := false; document := false; navigator := None;
     process := Some {| env := Some [("NODE_ENV", "production")] |};
     createPrettyLogStream := Ok "pino-pretty" |}.

Definition next_prod : Ambient :=
  {| window := false; document := false; navigator := None;
     process := Some {| env := Some [ ("NODE_ENV", "production");
                                      ("NEXT_RUNTIME", "nodejs");
                                      ("NEXT_PUBLIC_API", "/api") ] |};
     createPrettyLogStream := Ok "pino-pretty" |}.

(** A dedicated worker: [navigator] only, neither [window] nor
    [process]. *)
Definition worker : Ambient :=
  {| window := false; document := false;
     navigator := Some "Mozilla/5.0 (X11; Linux x86_64)";
     process := None;
     createPrettyLogStream := Ok "pino-pretty" |}.

(** A browser page without a [process] global. *)
Definition browser_page : Ambient :=
  {| window := true; document := true;
     navigator := Some "Mozilla/5.0 (X11; Linux x86_64)";
     process := None;
     createPrettyLogStream := Ok "pino-pretty" |}.

(** A logger named "app" as a production server builds it. *)
Definition app_logger (K : Consts) : Logger :=
  {| class_of := LoggerClass;
     logger := built K ProdConfig None None "app";
     name := "app";
     isBrowser := false |}.

(** The nine calls made while the module is evaluated. *)
Definition load_calls : list (JsValue * LogLevel * string * list JsValue) :=
  [ (JStr "app", Critical, "This is a critical log message", []);
    (JStr "app", Error, "This is an error log message", []);
    (JStr "app", Warn, "This is a warning log message", []);
    (JStr "app", Log, "This is a log message", []);
    (JStr "app", Info, "This is an info log message", []);
    (JStr "app", Details, "This is a details log message", []);
    (JStr "app", Debug, "This is a debug log message", []);
    (JStr "app", Trace, "This is a trace log message", []);
    (JStr "app.submodule", Info,
       "This is an info message from a submodule", []) ].

(** The context object [{ a: 1 }]. *)
Definition a_is_1 : JsValue :=
  JObj [("a", JNum {| int_value := 1; int_safe := eq_refl |})].

(** Module constants of a process with an alert address configured. *)
Definition alerting : Consts :=
  consts_of [("SLACK_WEBHOOK_URL", "https://hooks.slack.example/T0/B0")].

(** ** The consumers of the module

    [SomeButton.tsx] and [pages/_app.tsx] each build a logger when they
    are evaluated and log at [info] when they render. The elements they
    return are left out: only what they do to the trace is modelled. *)

Module SomeButton.

(** [const logger = new Logger("SomeButton")] *)
Definition load (K : Consts) (a : Ambient) : Result Logger :=
  new K a LoggerClass "SomeButton".

(** The body of the component. *)
Definition render (logger : Logger) (w : World) : World :=
  Logger.info logger "Rendering component" [] w.

End SomeButton.

Module App.

(** [const logger = new Logger("App"); logger.info("Starting app server")] *)
Definition load (K : Consts) (a : Ambient) (w : World)
    : Result (Logger * World) :=
  logger <- new K a LoggerClass "App" ;;
  Ok (logger, Logger.info logger "Starting app server" [] w).

(** The body of [App], given [Component.name] and [pageProps]. *)
Definition render (logger : Logger) (componentName : string)
    (pageProps : JsValue) (w : World) : World :=
  Logger.info logger "rendering page"
    [ JObj [("component", JStr componentName); ("pageProps", pageProps)] ] w.

End App.

(** Evaluation of [pages/_app.tsx]: its imports in order ([@/logging],
    then [@/SomeButton], which finds [./logging] already evaluated), then
    its own top level. *)
Definition startup (a : Ambient)
    : Result (Consts * Logger * Logger * World) :=
  loaded <- module_load a ;;
  let '(K, _, w) := loaded in
  button <- SomeButton.load K a ;;
  started <- App.load K a w ;;
  let '(app, w) := started in
  Ok (K, button, app, w).

(** The calls of [module_load], on the pino loggers of the default
    instance and of its extension. *)
Definition call (lg : PinoLogger) (l : LogLevel) (msg : string) : PinoCall :=
  {| on_logger := lg; at_level := l; message := msg; args := [] |}.

Definition load_trace (P Q : PinoLogger) : list PinoCall :=
  [ call P Critical "This is a critical log message";
    call P Error "This is an error log message";
    call P Warn "This is a warning log message";
    call P Log "This is a log message";
    call P Info "This is an info log message";
    call P Details "This is a details log message";
    call P Debug "This is a debug log message";
    call P Trace "This is a trace log message";
    call Q Info "This is an info message from a submodule" ].

(** A logger object with the fields the constructor gives it. *)
Definition instance (K : Consts) (a : Ambient) (cls : Class)
    (ref : ConfigRef) (dest : option Stream) (nm : string) : Logger :=
  {| class_of := cls;
     logger := built K ref None dest nm;
     name := nm;
     isBrowser := window a |}.

(** A development page rendered by the framework in the browser: the
    globals of a page together with a [process] global. *)
Definition next_dev_client : Ambient :=
  {| window := true; document := true;
     navigator := Some "Mozilla/5.0 (X11; Linux x86_64)";
     process := Some {| env := Some [("NODE_ENV", "development")] |};
     createPrettyLogStream := Throw (Raised "fs is not available") |}.

(** A process whose [env] carries a threshold and bindings beyond the
    three the formatter keeps. *)
Definition node_warn : Ambient :=
  {| window := false; document := false; navigator := None;
     process := Some {| env := Some [ ("NODE_ENV", "production");
                                      ("LOG_LEVEL", "warn") ] |};
     createPrettyLogStream := Ok "pino-pretty" |}.

Definition sample_bindings : Bindings :=
  [ ("pid", JNum {| int_value := 4242; int_safe := eq_refl |});
    ("hostname", JStr "web-1");
    ("name", JStr "app"); ("region", JStr "eu") ].

(** * Theorems *)

(** ** Severity scale *)

Lemma strictly_increasing_lt_head (w : Z) (ws : list Z) :
  strictly_increasing (w :: ws) -> forall x, In x ws -> w < x.
Proof.
  revert w. induction ws as [|v ws IH]; intros w H x Hx.
  - destruct Hx.
  - destruct H as [Hlt Hrest]. destruct Hx as [<-|Hx]; [exact Hlt|].
    specialize (IH v Hrest x Hx). lia.
Qed.

Lemma strictly_increasing_NoDup (ws : list Z) :
  strictly_increasing ws -> NoDup ws.
Proof.
  induction ws as [|w ws IH]; intros H.
  - constructor.
  - constructor.
    + intros Hin. pose proof (strictly_increasing_lt_head w ws H w Hin). lia.
    + apply IH. destruct ws as [|v ws']; [exact I|]. destruct H as [_ H]. exact H.
Qed.

(** C6. In the declared order of [LOG_LEVELS] (trace, debug, details, log,
    info, warn, error, critical) the weights are 10, 20, 25, 30, 35, 40,
    50, 60; the sequence is strictly increasing and no two levels share a
    weight. *)
Theorem LOG_LEVELS_weights_increasing :
  Js.keys LOG_LEVELS = map label all_levels /\
  map snd LOG_LEVELS = [10; 20; 25; 30; 35; 40; 50; 60] /\
  map weight all_levels = map snd LOG_LEVELS /\
  strictly_increasing (map weight all_levels) /\
  NoDup (map weight all_levels).
Proof.
  assert (Hinc : strictly_increasing (map weight all_levels)).
  { cbn. repeat split; lia. }
  repeat split; try reflexivity; try exact Hinc.
  apply strictly_increasing_NoDup, Hinc.
Qed.

(** ** Level field of a record *)

Lemma label_is_key (l : LogLevel) :
  Js.array_includes (label l) (Js.keys LOG_LEVELS) = true.
Proof. destruct l; reflexivity. Qed.

Lemma formatters_level_label :
  map formatters_level (map label all_levels) = map LevelText short_codes.
Proof. reflexivity. Qed.

Lemma formatters_level_unknown (s : string) :
  Js.array_includes s (Js.keys LOG_LEVELS) = false ->
  formatters_level s = LevelText "UNK".
Proof. intros H. unfold formatters_level. rewrite H. reflexivity. Qed.

(** C2, as the code has it. Under the production configuration the level
    field of a record is the level's three-letter code (TRC, DBG, DTL,
    LOG, INF, WRN, ERR, CRT), and the level formatter maps every name
    that is not a key of the table to "UNK". Under the development
    configuration, which carries no level formatter, the level field is
    the raw numeric weight. The browser configuration carries no
    formatters at all and its output never has a three-letter code, nor
    any other text, as level. This holds for the options object handed
    to pino, whatever [process.env] and the level override are. *)
Theorem level_field_by_config (e : Env) (lvl : option string) (s : string)
    (l : LogLevel) (code : string) :
  map (level_field (with_level (deref (consts_of e) ProdConfig) lvl)) all_levels
    = map LevelText short_codes /\
  map (level_field (with_level (deref (consts_of e) DevConfig) lvl)) all_levels
    = map LevelNumber [10; 20; 25; 30; 35; 40; 50; 60] /\
  formatters browserConfig = None /\
  level_field (with_level (deref (consts_of e) BrowserConfig) lvl) l
    <> LevelText code /\
  ((exists l', s = label l') \/ formatters_level s = LevelText "UNK").
Proof.
  split; [reflexivity|]. split; [reflexivity|]. split; [reflexivity|].
  split; [discriminate|].
  destruct (Js.array_includes s (Js.keys LOG_LEVELS)) eqn:Hs.
  - left. cbn in Hs.
    repeat match type of Hs with
           | (?x =? ?k)%string || _ = true =>
               destruct (String.eqb_spec x k) as [Heq|_];
               [ rewrite Heq; first [ now exists Trace | now exists Debug | now exists Details
                       | now exists Log | now exists Info | now exists Warn
                       | now exists Error | now exists Critical ] | cbn in Hs ]
           end.
    discriminate Hs.
  - right. now apply formatters_level_unknown.
Qed.

(** C2, counterexample: under the browser configuration the level field
    of an [info] record is not the code "INF". *)
Lemma browser_level_is_not_short_code :
  ~ (level_field (with_level (deref (consts_of []) BrowserConfig) None) Info
       = LevelText "INF").
Proof. cbn. discriminate. Qed.

(** ** Threshold from [LOG_LEVEL] *)

Lemma level_from_env_unset (e : Env) (fallback : string) :
  Js.get "LOG_LEVEL" e = None -> level_from_env e fallback = fallback.
Proof. intros H. unfold level_from_env. now rewrite H. Qed.

Lemma level_from_env_recognized (e : Env) (fallback : string) (l : LogLevel) :
  Js.get "LOG_LEVEL" e = Some (label l) -> level_from_env e fallback = label l.
Proof.
  intros H. unfold level_from_env, Js.has_property. rewrite H, label_is_key.
  destruct l; reflexivity.
Qed.

Lemma level_from_env_rejected (e : Env) (fallback v : string) :
  Js.get "LOG_LEVEL" e = Some v ->
  Js.has_property v LOG_LEVELS = false ->
  level_from_env e fallback = fallback.
Proof.
  intros H Hv. unfold level_from_env. rewrite H, Hv.
  now rewrite andb_false_r.
Qed.

(** C5, the code at the failing input. With [LOG_LEVEL=constructor] the
    test [process.env.LOG_LEVEL in LOG_LEVELS] succeeds through
    [Object.prototype]: "constructor" is not a key of the severity table,
    yet it becomes the threshold of both the development and the
    production configuration instead of "details" and "info". *)
Theorem LOG_LEVEL_inherited_name_becomes_threshold :
  let e := [("LOG_LEVEL", "constructor")] in
  Js.array_includes "constructor" (Js.keys LOG_LEVELS) = false /\
  level (devConfig e) = Some "constructor" /\
  level (prodConfig e) = Some "constructor" /\
  level (devConfig e) <> Some "details" /\
  level (prodConfig e) <> Some "info".
Proof. cbn. repeat split; discriminate. Qed.

(** ** Selection of the configuration *)

Lemma process_env_defined (a : Ambient) (e : Env) :
  process_env a = Ok e -> isRealBrowser a = false.
Proof.
  unfold process_env, isRealBrowser. destruct (process a); [|discriminate].
  intros _. cbn. now rewrite andb_false_r.
Qed.

(** Where [process.env] can be read, and where the browser test
    succeeds, the selection follows the stated precedence. *)
Lemma select_config_precedence (a : Ambient) :
  (isRealBrowser a = true -> select_config a = Ok BrowserConfig) /\
  (forall e, process_env a = Ok e ->
     select_config a =
       Ok (if strict_eq (Js.get "NODE_ENV" e) "production"
           then ProdConfig else DevConfig)).
Proof.
  split.
  - intros H. unfold select_config. now rewrite H.
  - intros e He. unfold select_config.
    rewrite (process_env_defined a e He), He. cbn.
    now destruct (strict_eq _ _).
Qed.

(** In a browser page without a [process] global [createLogger] selects
    the browser configuration, whose threshold is pino's default; the
    module itself cannot be evaluated there, since its constants read
    [process.env]. *)
Lemma browser_page_selects_browser :
  isRealBrowser browser_page = true /\
  select_config browser_page = Ok BrowserConfig /\
  (forall K nm,
     createLogger K browser_page nm None
       = Ok (built K BrowserConfig None None nm)) /\
  (forall K nm, threshold (built K BrowserConfig None None nm) = "info") /\
  module_load browser_page = Throw (ReferenceError "process").
Proof. repeat split. Qed.

(** C4, the code at the failing input. In a runtime with neither a
    [window] nor a [process] global the browser test fails and the
    production-mode signal is not set, so the stated precedence gives the
    development configuration; [createLogger] instead raises a
    ReferenceError when it reads [process.env.NODE_ENV], and no
    configuration is selected. *)
Theorem select_config_without_process :
  isRealBrowser worker = false /\
  select_config worker = Throw (ReferenceError "process") /\
  select_config worker <> Ok DevConfig /\
  (forall K nm lvl,
     createLogger K worker nm lvl = Throw (ReferenceError "process")) /\
  module_load worker = Throw (ReferenceError "process").
Proof. repeat split; try reflexivity. discriminate. Qed.

(** C8. Two runtimes that agree on the [window], [document] and
    [navigator] globals, on the presence of [process] and on the
    production-mode signal select the same configuration, whatever
    framework markers ([NEXT_RUNTIME], [NEXT_PUBLIC_*] variables) either
    of them carries: the framework detection does not take part in the
    selection. *)
Theorem select_config_ignores_framework_markers (a1 a2 : Ambient) :
  window a1 = window a2 ->
  document a1 = document a2 ->
  navigator a1 = navigator a2 ->
  defined (process a1) = defined (process a2) ->
  node_env a1 = node_env a2 ->
  select_config a1 = select_config a2.
Proof.
  intros Hw Hd Hn Hp He.
  assert (Hb : isRealBrowser a1 = isRealBrowser a2).
  { unfold isRealBrowser. now rewrite Hw, Hd, Hn, Hp. }
  unfold select_config. rewrite <- Hb.
  destruct (isRealBrowser a1); [reflexivity|].
  unfold node_env in He.
  destruct (process_env a1) as [e1|x1], (process_env a2) as [e2|x2];
    cbn in *; try congruence.
  injection He as He. now rewrite He.
Qed.

Lemma select_config_ignores_framework_markers_witness :
  isNextJS node_prod = false /\
  isNextJS next_prod = true /\
  select_config node_prod = select_config next_prod /\
  select_config next_prod = Ok ProdConfig.
Proof.
  split; [reflexivity|]. split; [reflexivity|]. split.
  - apply (select_config_ignores_framework_markers node_prod next_prod);
      reflexivity.
  - reflexivity.
Defined.

(** ** Construction of a logger *)

Lemma append_assoc (s t u : string) : (s ++ t) ++ u = s ++ t ++ u.
Proof. induction s as [|c s IH]; cbn; [reflexivity|now rewrite IH]. Qed.

Lemma length_append (s t : string) :
  String.length (s ++ t) = (String.length s + String.length t)%nat.
Proof. induction s as [|c s IH]; cbn; [reflexivity|now rewrite IH]. Qed.

Lemma createLogger_cases (K : Consts) (a : Ambient) (nm : string)
    (lvl : option string) (ref : ConfigRef) :
  select_config a = Ok ref ->
  createLogger K a nm lvl =
    if ConfigRef_eqb ref DevConfig && negb (window a)
    then match createPrettyLogStream a with
         | Ok stream => Ok (built K ref lvl (Some stream) nm)
         | Throw x => Throw x
         end
    else Ok (built K ref lvl None nm).
Proof.
  intros H. unfold createLogger. rewrite H. cbn.
  destruct (ConfigRef_eqb ref DevConfig && negb (window a)); [|reflexivity].
  now destruct (createPrettyLogStream a).
Qed.

(** Whether construction succeeds does not depend on the name. *)
Lemma createLogger_any_name (K : Consts) (a : Ambient) (nm nm' : string)
    (lvl : option string) (l : PinoLogger) :
  createLogger K a nm lvl = Ok l ->
  exists ref dest,
    select_config a = Ok ref /\
    l = built K ref lvl dest nm /\
    createLogger K a nm' lvl = Ok (built K ref lvl dest nm').
Proof.
  intros H. destruct (select_config a) as [ref|x] eqn:Hsel.
  - rewrite (createLogger_cases K a nm lvl ref Hsel) in H.
    rewrite (createLogger_cases K a nm' lvl ref Hsel).
    destruct (ConfigRef_eqb ref DevConfig && negb (window a)).
    + destruct (createPrettyLogStream a) as [s|x]; [|discriminate H].
      injection H as <-. now exists ref, (Some s).
    + injection H as <-. now exists ref, None.
  - unfold createLogger in H. rewrite Hsel in H. discriminate H.
Qed.

Lemma built_record_name (e : Env) (ref : ConfigRef) (lvl : option string)
    (dest : option Stream) (nm : string) (c : PinoCall) :
  on_logger c = built (consts_of e) ref lvl dest nm ->
  record_name (record_of c) = JStr nm /\ named nm c = true.
Proof.
  intros H. unfold record_of, named. cbn. rewrite H.
  destruct ref; cbn; now rewrite String.eqb_refl.
Qed.

(** [extend] constructs through the same path as [new Logger(name)]. *)
Lemma extend_is_new (K : Consts) (a : Ambient) (self : Logger)
    (subname : string) :
  Logger.extend K a self subname
    = new K a LoggerClass (name self ++ "." ++ subname).
Proof. reflexivity. Qed.

(** C3, as the code has it. Once a configuration is selected, sink
    construction consults the pretty-print collaborator only under the
    development configuration without a [window] global. There a stream
    it returns becomes the destination of the logger, and a failure of
    the collaborator is raised to the caller of [new Logger(name)]:
    nothing falls back to the structured sink. In every other case the
    logger is built on the default structured sink without consulting
    the collaborator. *)
Theorem construction_and_collaborator (K : Consts) (a : Ambient)
    (cls : Class) (nm : string) (ref : ConfigRef) :
  select_config a = Ok ref ->
  (ConfigRef_eqb ref DevConfig && negb (window a) = true ->
     (forall x, createPrettyLogStream a = Throw x ->
                new K a cls nm = Throw x) /\
     (forall s, createPrettyLogStream a = Ok s ->
                exists o, new K a cls nm = Ok o /\
                          destination (logger o) = Some s)) /\
  (ConfigRef_eqb ref DevConfig && negb (window a) = false ->
     exists o, new K a cls nm = Ok o /\ destination (logger o) = None).
Proof.
  intros Hsel. unfold new, Logger.constructor.
  rewrite (createLogger_cases K a nm None ref Hsel).
  split; intros Hc; rewrite Hc.
  - split.
    + intros x Hx. now rewrite Hx.
    + intros s Hs. rewrite Hs. cbn. eexists. split; reflexivity.
  - cbn. eexists. split; reflexivity.
Qed.

Lemma construction_and_collaborator_witness :
  new (consts_of []) node_dev_without_pretty LoggerClass "app"
    = Throw (Raised "Cannot find module 'pino-pretty'") /\
  exists o, new (consts_of []) node_prod LoggerClass "app" = Ok o /\
            destination (logger o) = None.
Proof.
  split.
  - apply (construction_and_collaborator (consts_of [])
             node_dev_without_pretty LoggerClass "app" DevConfig);
      reflexivity.
  - apply (construction_and_collaborator (consts_of [])
             node_prod LoggerClass "app" ProdConfig); reflexivity.
Defined.

(** C3, counterexample: in a development process whose pretty-print
    collaborator fails, [new Logger("app")] does not return a logger. *)
Lemma construction_throws_without_pretty_stream :
  ~ (exists o, new (consts_of []) node_dev_without_pretty LoggerClass "app"
                 = Ok o).
Proof. intros [o H]. discriminate H. Qed.

(** ** Calls and records of the severity methods *)

Lemma invoke_severity (K : Consts) (a : Ambient) (self : Logger)
    (l : LogLevel) (m : string) (rest : list JsValue) (w : World) :
  invoke K a self (Severity l) m rest w =
    Ok (Void,
        match l with
        | Critical => Logger.critical K self m rest w
        | _ => Logger.emit self l m rest w
        end).
Proof. unfold invoke. destruct (class_of self), l; reflexivity. Qed.

Lemma written_emit (self : Logger) (l : LogLevel) (m : string)
    (rest : list JsValue) (w : World) :
  written (Logger.emit self l m rest w) =
    (written w ++
     if isLevelEnabled (logger self) l
     then [ record_of {| on_logger := logger self; at_level := l;
                         message := m; args := rest |} ]
     else [])%list.
Proof.
  unfold written, Logger.emit. cbn [calls].
  rewrite filter_app, map_app. cbn [filter]. unfold enabled at 2.
  cbn [on_logger at_level].
  now destruct (isLevelEnabled (logger self) l).
Qed.

Lemma written_critical (K : Consts) (self : Logger) (m : string)
    (rest : list JsValue) (w : World) :
  written (Logger.critical K self m rest w)
    = written (Logger.emit self Critical m rest w).
Proof.
  unfold Logger.critical. now destruct (Js.truthy_opt (slackWebhookUrl K)).
Qed.

(** C7. For every logger [root] with name [r] and all subnames [x] and
    [y], [root.extend(x)] returns a new logger named "r.x", extending
    that one by [y] returns a logger named "r.x.y", and the records the
    latter produces have "r.x.y" in their name field: each of its
    severity methods makes one call on its own pino logger, with the
    level, message and arguments it was given, and that call, which
    writes a record whenever its level passes the threshold, carries the
    name "r.x.y". *)
Theorem extend_joins_names (e : Env) (a : Ambient) (cls : Class)
    (r x y : string) (root : Logger) :
  new (consts_of e) a cls r = Ok root ->
  exists lx lxy,
    Logger.extend (consts_of e) a root x = Ok lx /\
    name lx = r ++ "." ++ x /\
    Logger.extend (consts_of e) a lx y = Ok lxy /\
    name lxy = r ++ "." ++ x ++ "." ++ y /\
    (forall c, on_logger c = logger lxy ->
               record_name (record_of c) = JStr (r ++ "." ++ x ++ "." ++ y)) /\
    forall l msg rest w,
      exists c w',
        invoke (consts_of e) a lxy (Severity l) msg rest w = Ok (Void, w') /\
        calls w' = (calls w ++ [c])%list /\
        on_logger c = logger lxy /\
        at_level c = l /\ message c = msg /\ args c = rest /\
        record_name (record_of c) = JStr (r ++ "." ++ x ++ "." ++ y) /\
        written w' =
          (written w ++
           if isLevelEnabled (logger lxy) l then [record_of c] else [])%list.
Proof.
  intros H. unfold new, Logger.constructor in H.
  destruct (createLogger (consts_of e) a r None) as [l|exn] eqn:Hl;
    [|discriminate H].
  cbn in H. injection H as <-.
  destruct (createLogger_any_name _ _ r (r ++ "." ++ x) _ _ Hl)
    as (ref & dest & Hsel & _ & Hx).
  destruct (createLogger_any_name _ _ r (r ++ "." ++ x ++ "." ++ y) _ _ Hl)
    as (ref' & dest' & Hsel' & _ & Hxy).
  exists {| class_of := LoggerClass;
            logger := built (consts_of e) ref None dest (r ++ "." ++ x);
            name := r ++ "." ++ x; isBrowser := window a |}.
  exists {| class_of := LoggerClass;
            logger := built (consts_of e) ref' None dest'
                        (r ++ "." ++ x ++ "." ++ y);
            name := r ++ "." ++ x ++ "." ++ y; isBrowser := window a |}.
  assert (E : (r ++ "." ++ x) ++ "." ++ y = r ++ "." ++ x ++ "." ++ y)
    by (rewrite append_assoc; reflexivity).
  unfold Logger.extend, Logger.constructor. cbn [name logger].
  rewrite Hx, E, Hxy. cbn [Js.bind].
  split; [reflexivity|]. split; [reflexivity|]. split; [reflexivity|].
  split; [reflexivity|]. split.
  - intros c Hc. now apply (built_record_name e ref' None dest').
  - intros lv msg rest w.
    set (self := {| class_of := LoggerClass;
                    logger := built (consts_of e) ref' None dest'
                                (r ++ "." ++ x ++ "." ++ y);
                    name := r ++ "." ++ x ++ "." ++ y;
                    isBrowser := window a |}).
    exists {| on_logger := logger self; at_level := lv;
              message := msg; args := rest |}.
    eexists. rewrite invoke_severity. split; [reflexivity|].
    split.
    { destruct lv; try reflexivity. unfold Logger.critical.
      now destruct (Js.truthy_opt (slackWebhookUrl (consts_of e))). }
    split; [reflexivity|]. split; [reflexivity|].
    split; [reflexivity|]. split; [reflexivity|]. split.
    { now apply (built_record_name e ref' None dest'
                   (r ++ "." ++ x ++ "." ++ y)). }
    destruct lv; rewrite ?written_critical; apply written_emit.
Qed.

Lemma extend_joins_names_witness :
  exists root lx lxy w',
    new (consts_of []) node_dev LoggerClass "app" = Ok root /\
    Logger.extend (consts_of []) node_dev root "x" = Ok lx /\
    Logger.extend (consts_of []) node_dev lx "y" = Ok lxy /\
    name lxy = "app.x.y" /\
    invoke (consts_of []) node_dev lxy (Severity Warn) "slow" [] empty_world
      = Ok (Void, w') /\
    map record_name (written w') = [JStr "app.x.y"].
Proof.
  eexists.
  destruct (extend_joins_names [] node_dev LoggerClass "app" "x" "y" _
              eq_refl) as (lx & lxy & H1 & _ & H2 & H3 & _ & Hcall).
  destruct (Hcall Warn "slow" [] empty_world)
    as (c & w' & Hi & _ & Hon & _ & _ & _ & Hn & Hw).
  exists lx, lxy, w'. repeat split; try assumption.
  rewrite Hw.
  assert (He : isLevelEnabled (logger lxy) Warn = true).
  { unfold Logger.extend, Logger.constructor in H1, H2.
    cbn in H1. injection H1 as <-. cbn in H2. injection H2 as <-.
    reflexivity. }
  rewrite He. cbn [written calls empty_world filter map app].
  now rewrite Hn.
Defined.

(** ** The subclass *)

Lemma lookup_method_ColorLogger (m : Method) :
  lookup_method (prototype_chain ColorLoggerClass) m
    = lookup_method (prototype_chain LoggerClass) m.
Proof. reflexivity. Qed.

(** C9. [ColorLogger] declares no method of its own, every method of the
    public surface resolves on it to the body declared in [Logger], and
    for every method and every input, constructing a [ColorLogger] and
    calling the method has the same outcome (value returned or exception
    raised, calls made on the sink, alert payloads and deliveries) as
    constructing a [Logger] with the same name and calling it. *)
Theorem ColorLogger_behaves_as_Logger (K : Consts) (a : Ambient)
    (nm : string) (m : Method) (first : string) (rest : list JsValue)
    (w : World) :
  own_method ColorLoggerClass m = None /\
  lookup_method (prototype_chain ColorLoggerClass) m = Logger_prototype m /\
  (o <- new K a ColorLoggerClass nm ;; invoke K a o m first rest w)
    = (o <- new K a LoggerClass nm ;; invoke K a o m first rest w).
Proof.
  split; [reflexivity|]. split; [destruct m as [[]|]; reflexivity|].
  unfold new, Logger.constructor.
  destruct (createLogger K a nm None) as [l|x]; [|reflexivity].
  cbn [Js.bind]. unfold invoke. cbn [class_of].
  rewrite lookup_method_ColorLogger.
  destruct m as [[]|]; reflexivity.
Qed.

(** ** The alert channel *)

Lemma array_keys_length (xs : list JsValue) :
  List.length (array_keys xs) = List.length xs.
Proof. unfold array_keys. now rewrite length_map, length_seq. Qed.

(** C1, the code at the failing input. With an alert address configured,
    [critical("msg", { a: 1 })] on the logger "app" makes its call on the
    pino logger and builds the payload titled "[app] CRITICAL: msg", whose
    detail is the pretty-printed JSON of the arguments between two
    triple-backtick fences; the payload is then dropped: no delivery to
    the alert channel is attempted, where the claim has exactly one. *)
Theorem critical_builds_and_drops_payload :
  let w := Logger.critical alerting (app_logger alerting) "msg" [a_is_1]
             empty_world in
  slackWebhookUrl alerting = Some "https://hooks.slack.example/T0/B0" /\
  map summary (calls w) = [(JStr "app", Critical, "msg", [a_is_1])] /\
  map text (payloads w) = ["[app] CRITICAL: msg"] /\
  map (fun p => map attachment_text (attachments p)) (payloads w)
    = [["```" ++ Json.stringify_array [a_is_1] 2 ++ "```"]] /\
  dispatches w = [] /\
  List.length (dispatches w) <> 1%nat.
Proof. cbn zeta. repeat split. discriminate. Qed.

(** No method body contains a delivery: the payload built by [critical]
    is dropped when the method returns. *)
Lemma invoke_severity_dispatches (K : Consts) (a : Ambient) (self : Logger)
    (l : LogLevel) (m : string) (rest : list JsValue) (w : World) :
  exists w', invoke K a self (Severity l) m rest w = Ok (Void, w') /\
             dispatches w' = dispatches w.
Proof.
  rewrite invoke_severity. eexists. split; [reflexivity|].
  destruct l; try reflexivity.
  unfold Logger.critical. now destruct (Js.truthy_opt (slackWebhookUrl K)).
Qed.

(** The detail of the payload that is built is the fenced text, which
    differs from the pretty-printed JSON itself. *)
Lemma critical_detail_is_fenced (self : Logger) (m : string)
    (x : JsValue) (rest : list JsValue) :
  map attachment_text (attachments (Logger.slackMessage self m (x :: rest)))
    = ["```" ++ Json.stringify_array (x :: rest) 2 ++ "```"] /\
  "```" ++ Json.stringify_array (x :: rest) 2 ++ "```"
    <> Json.stringify_array (x :: rest) 2.
Proof.
  split.
  - unfold Logger.slackMessage. cbn [attachments map attachment_text].
    now rewrite array_keys_length.
  - intros H. apply (f_equal String.length) in H.
    rewrite !length_append in H. cbn in H. lia.
Qed.

(** ** Module evaluation *)

(** With [process.env] readable and the pretty-print stream either not
    needed or available, every construction succeeds. *)
Lemma createLogger_succeeds (a : Ambient) (e : Env) :
  process_env a = Ok e ->
  (window a = true \/
   strict_eq (Js.get "NODE_ENV" e) "production" = true \/
   exists s, createPrettyLogStream a = Ok s) ->
  exists ref dest, forall K nm,
    createLogger K a nm None = Ok (built K ref None dest nm).
Proof.
  intros He Hc.
  destruct (select_config_precedence a) as [_ Hsel].
  specialize (Hsel e He).
  set (ref := if strict_eq (Js.get "NODE_ENV" e) "production"
              then ProdConfig else DevConfig) in Hsel.
  destruct (ConfigRef_eqb ref DevConfig && negb (window a)) eqn:Hdev.
  - destruct Hc as [Hw | [Hp | [s Hs]]].
    + rewrite Hw in Hdev. now rewrite andb_false_r in Hdev.
    + subst ref. rewrite Hp in Hdev. discriminate Hdev.
    + exists ref, (Some s). intros K nm.
      rewrite (createLogger_cases K a nm None ref Hsel), Hdev.
      now rewrite Hs.
  - exists ref, None. intros K nm.
    now rewrite (createLogger_cases K a nm None ref Hsel), Hdev.
Qed.

Lemma built_name (K : Consts) (ref : ConfigRef) (lvl : option string)
    (dest : option Stream) (nm : string) :
  prop "name" (bindings (built K ref lvl dest nm)) = JStr nm.
Proof. reflexivity. Qed.

Lemma built_levelVal (K : Consts) (ref : ConfigRef) (lvl : option string)
    (dest : option Stream) (nm nm' : string) :
  levelVal (built K ref lvl dest nm) = levelVal (built K ref lvl dest nm').
Proof. reflexivity. Qed.

(** C10, as the code has it. Whenever [process.env] can be read and the
    pretty-print stream is either not needed or available, evaluating
    the module constructs the default logger "app" and calls each of the
    eight severity methods on it exactly once, in the order critical,
    error, warn, log, info, details, debug, trace, followed by one [info]
    call on the extended logger "app.submodule". A call writes a record
    exactly when the weight of its level is not below the weight [t] of
    the active threshold: one record per level at or above the
    threshold, none below it. *)
Theorem module_load_calls (a : Ambient) (e : Env) :
  process_env a = Ok e ->
  (window a = true \/
   strict_eq (Js.get "NODE_ENV" e) "production" = true \/
   exists s, createPrettyLogStream a = Ok s) ->
  exists lg w,
    module_load a = Ok (consts_of e, lg, w) /\
    class_of lg = LoggerClass /\
    name lg = "app" /\
    map summary (calls w) = load_calls /\
    forall t, levelVal (logger lg) = Some t ->
      (forall l, emitted_at w "app" l
                 = if t <=? weight l then 1%nat else 0%nat) /\
      (forall l, emitted_at w "app.submodule" l
                 = if LogLevel_eqb l Info && (t <=? weight Info)
                   then 1%nat else 0%nat).
Proof.
  intros He Hc.
  destruct (createLogger_succeeds a e He Hc) as (ref & dest & Hmk).
  unfold module_load, load_consts. rewrite He. cbn [Js.bind].
  unfold new, Logger.extend, Logger.constructor.
  rewrite Hmk. cbn [Js.bind name]. rewrite Hmk. cbn [Js.bind].
  pose proof (built_name (consts_of e) ref None dest "app") as HnP.
  pose proof (built_name (consts_of e) ref None dest "app.submodule") as HnQ.
  pose proof (built_levelVal (consts_of e) ref None dest
                "app" "app.submodule") as HlQ.
  change ("app" ++ "." ++ "submodule") with "app.submodule".
  set (P := built (consts_of e) ref None dest "app") in *.
  set (Q := built (consts_of e) ref None dest "app.submodule") in *.
  clearbody P Q.
  do 2 eexists. split; [reflexivity|].
  split; [reflexivity|]. split; [reflexivity|]. split.
  - unfold Logger.critical, Logger.error, Logger.warn, Logger.log,
      Logger.info, Logger.details, Logger.debug, Logger.trace, Logger.emit,
      summary, load_calls.
    destruct (Js.truthy_opt (slackWebhookUrl (consts_of e)));
      cbn [calls app map on_logger at_level message args empty_world logger];
      rewrite HnP, HnQ; reflexivity.
  - intros t Ht. cbn [logger] in Ht.
    assert (HeP : forall l, isLevelEnabled P l = (t <=? weight l)).
    { intros l. unfold isLevelEnabled. now rewrite Ht. }
    assert (HeQ : forall l, isLevelEnabled Q l = (t <=? weight l)).
    { intros l. unfold isLevelEnabled. now rewrite <- HlQ, Ht. }
    unfold Logger.critical, Logger.error, Logger.warn, Logger.log,
      Logger.info, Logger.details, Logger.debug, Logger.trace, Logger.emit,
      emitted_at, named, enabled.
    split; intros l;
      destruct (Js.truthy_opt (slackWebhookUrl (consts_of e)));
      cbn [calls app on_logger at_level empty_world logger];
      destruct l;
      cbn [filter LogLevel_eqb andb on_logger at_level logger];
      rewrite ?HnP, ?HnQ, ?HeP, ?HeQ;
      cbn [String.eqb Ascii.eqb Bool.eqb andb];
      repeat match goal with
             | |- context [?u <=? ?v] => destruct (u <=? v)
             end;
      reflexivity.
Qed.

Lemma module_load_calls_witness :
  exists lg w,
    module_load node_dev = Ok (consts_of [], lg, w) /\
    name lg = "app" /\
    map summary (calls w) = load_calls /\
    emitted_at w "app" Debug = 0%nat /\
    emitted_at w "app" Details = 1%nat.
Proof.
  destruct (module_load_calls node_dev [] eq_refl
              (or_intror (or_intror (ex_intro _ "pino-pretty" eq_refl))))
    as (lg & w & Hload & _ & Hname & Hcalls & Hgate).
  exists lg, w. split; [exact Hload|]. split; [exact Hname|].
  split; [exact Hcalls|].
  assert (Ht : levelVal (logger lg) = Some 25).
  { vm_compute in Hload. injection Hload as <- _. reflexivity. }
  destruct (Hgate 25 Ht) as [Happ _].
  split; [exact (Happ Debug)|exact (Happ Details)].
Defined.

(** C10, counterexample: in a development process started without
    [LOG_LEVEL] the threshold is "details", and evaluating the module
    does not write one record at each of the eight levels: none is
    written at [debug]. *)
Lemma module_load_writes_no_debug_record :
  ~ (exists K lg w,
       module_load node_dev = Ok (K, lg, w) /\
       forall l, emitted_at w "app" l = 1%nat).
Proof.
  intros (K & lg & w & Hload & Hall).
  vm_compute in Hload. injection Hload as <- <- <-.
  specialize (Hall Debug). vm_compute in Hall. discriminate Hall.
Qed.

(** * Further properties of the module *)

(** ** Formatters *)

Lemma key_is_label (s : string) :
  Js.array_includes s (Js.keys LOG_LEVELS) = true -> exists l, s = label l.
Proof.
  intros Hs. cbn in Hs.
  repeat match type of Hs with
         | (?x =? ?k)%string || _ = true =>
             destruct (String.eqb_spec x k) as [Heq|_];
             [ rewrite Heq;
               first [ now exists Trace | now exists Debug | now exists Details
                     | now exists Log | now exists Info | now exists Warn
                     | now exists Error | now exists Critical ]
             | cbn in Hs ]
         end.
  discriminate Hs.
Qed.

Lemma eqb_false_of_excluded (k : string) (ks : list string) (k' : string) :
  Js.array_includes k ks = false -> In k' ks -> String.eqb k k' = false.
Proof.
  unfold Js.array_includes. intros H Hin.
  destruct (String.eqb k k') eqn:E; [|reflexivity].
  assert (existsb (String.eqb k) ks = true)
    by (apply existsb_exists; now exists k').
  congruence.
Qed.

(** The bindings formatter keeps exactly [name], [pid] and [hostname],
    in that order, whatever it is given: a binding under any other key
    is dropped, a missing one becomes [undefined], and formatting twice
    changes nothing more. *)
Theorem formatters_bindings_projects (b : Bindings) (k : string) :
  Js.keys (formatters_bindings b) = ["name"; "pid"; "hostname"] /\
  formatters_bindings (formatters_bindings b) = formatters_bindings b /\
  (Js.array_includes k ["name"; "pid"; "hostname"] = true ->
     prop k (formatters_bindings b) = prop k b) /\
  (Js.array_includes k ["name"; "pid"; "hostname"] = false ->
     prop k (formatters_bindings b) = JUndefined).
Proof.
  split; [reflexivity|]. split; [reflexivity|]. split; intros Hk.
  - cbn in Hk. unfold formatters_bindings, prop at 1. cbn [Js.get].
    destruct (String.eqb_spec k "name") as [E|_]; [now rewrite E|].
    destruct (String.eqb_spec k "pid") as [E|_]; [now rewrite E|].
    destruct (String.eqb_spec k "hostname") as [E|_]; [now rewrite E|].
    discriminate Hk.
  - unfold formatters_bindings, prop at 1. cbn [Js.get].
    rewrite (eqb_false_of_excluded k _ "name" Hk) by (cbn; tauto).
    rewrite (eqb_false_of_excluded k _ "pid" Hk) by (cbn; tauto).
    rewrite (eqb_false_of_excluded k _ "hostname" Hk) by (cbn; tauto).
    reflexivity.
Qed.

Lemma formatters_bindings_projects_witness :
  prop "region" (formatters_bindings sample_bindings) = JUndefined /\
  prop "name" (formatters_bindings sample_bindings) = JStr "app".
Proof.
  destruct (formatters_bindings_projects sample_bindings "region")
    as (_ & _ & _ & Hdrop).
  destruct (formatters_bindings_projects sample_bindings "name")
    as (_ & _ & Hkeep & _).
  split; [exact (Hdrop eq_refl)|exact (Hkeep eq_refl)].
Defined.

(** The two tables agree: every weight of [LOG_LEVELS] has a code in
    [levelToShort], so the level formatter never yields [undefined]; it
    yields "UNK" exactly for the names that are not keys of
    [LOG_LEVELS]; and distinct levels get distinct codes. *)
Theorem formatters_level_codes (s : string) (a b : LogLevel) :
  formatters_level s <> LevelUndefined /\
  (formatters_level s = LevelText "UNK" <->
     Js.array_includes s (Js.keys LOG_LEVELS) = false) /\
  (formatters_level (label a) = formatters_level (label b) <-> a = b).
Proof.
  split; [|split].
  - destruct (Js.array_includes s (Js.keys LOG_LEVELS)) eqn:Hs.
    + destruct (key_is_label s Hs) as [l ->]. destruct l; discriminate.
    + rewrite (formatters_level_unknown s Hs). discriminate.
  - split.
    + intros H. destruct (Js.array_includes s (Js.keys LOG_LEVELS)) eqn:Hs;
        [|reflexivity].
      destruct (key_is_label s Hs) as [l ->]. destruct l; discriminate H.
    + apply formatters_level_unknown.
  - split.
    + destruct a, b; intros H; solve [reflexivity | discriminate H].
    + now intros ->.
Qed.

(** ** Threshold and configuration *)

Lemma label_truthy (l : LogLevel) : Js.truthy (label l) = true.
Proof. now destruct l. Qed.

Lemma level_from_env_cases (e : Env) (fallback : string) :
  (forall v, Js.get "LOG_LEVEL" e = Some v ->
             Js.array_includes v Js.Object_prototype_names = false) ->
  level_from_env e fallback =
    match Js.get "LOG_LEVEL" e with
    | Some v => if Js.array_includes v (Js.keys LOG_LEVELS) then v else fallback
    | None => fallback
    end.
Proof.
  intros H. unfold level_from_env, Js.has_property.
  destruct (Js.get "LOG_LEVEL" e) as [v|]; [|reflexivity].
  rewrite (H v eq_refl), orb_false_r.
  destruct (Js.array_includes v (Js.keys LOG_LEVELS)) eqn:Hv.
  - destruct (key_is_label v Hv) as [l ->]. now rewrite label_truthy.
  - now rewrite andb_false_r.
Qed.

(** Unless [LOG_LEVEL] is the name of a property inherited from
    [Object.prototype], the threshold of the development and of the
    production configuration is [LOG_LEVEL] when that is one of the eight
    level names (compared exactly, case included) and the default
    ("details", "info") when it is unset, empty or anything else; either
    way it is one of the eight names. *)
Theorem threshold_from_LOG_LEVEL (e : Env) :
  (forall v, Js.get "LOG_LEVEL" e = Some v ->
             Js.array_includes v Js.Object_prototype_names = false) ->
  let chosen fallback :=
    match Js.get "LOG_LEVEL" e with
    | Some v => if Js.array_includes v (Js.keys LOG_LEVELS) then v else fallback
    | None => fallback
    end in
  level (devConfig e) = Some (chosen "details") /\
  level (prodConfig e) = Some (chosen "info") /\
  (exists l, chosen "details" = label l) /\
  (exists l, chosen "info" = label l).
Proof.
  intros H chosen. cbn [level devConfig prodConfig].
  rewrite !(level_from_env_cases e _ H). fold (chosen "details") (chosen "info").
  split; [reflexivity|]. split; [reflexivity|].
  subst chosen. cbn beta.
  destruct (Js.get "LOG_LEVEL" e) as [v|].
  - destruct (Js.array_includes v (Js.keys LOG_LEVELS)) eqn:Hv.
    + destruct (key_is_label v Hv) as [l ->]. split; now exists l.
    + split; [now exists Details|now exists Info].
  - split; [now exists Details|now exists Info].
Qed.

Lemma threshold_from_LOG_LEVEL_witness :
  level (devConfig [("LOG_LEVEL", "warn")]) = Some "warn" /\
  level (prodConfig [("LOG_LEVEL", "WARN")]) = Some "info".
Proof.
  split.
  - refine (proj1 (threshold_from_LOG_LEVEL [("LOG_LEVEL", "warn")] _)).
    intros v Hv. injection Hv as <-. reflexivity.
  - refine (proj1 (proj2 (threshold_from_LOG_LEVEL [("LOG_LEVEL", "WARN")] _))).
    intros v Hv. injection Hv as <-. reflexivity.
Defined.

(** The module-level [envConfig] and the branch taken by [createLogger]
    agree whenever both read the same [process.env]: the configuration
    selected at construction is the one [envConfig] names. *)
Theorem select_config_is_envConfig (a : Ambient) (e : Env) :
  process_env a = Ok e ->
  select_config a = Ok (envConfig (consts_of e)) /\
  deref (consts_of e) (envConfig (consts_of e))
    = (if strict_eq (Js.get "NODE_ENV" e) "production"
       then prodConfig e else devConfig e).
Proof.
  intros He. split.
  - now apply select_config_precedence.
  - cbn [envConfig consts_of]. now destruct (strict_eq _ _).
Qed.

Lemma select_config_is_envConfig_witness :
  select_config next_prod
    = Ok (envConfig (consts_of [ ("NODE_ENV", "production");
                                 ("NEXT_RUNTIME", "nodejs");
                                 ("NEXT_PUBLIC_API", "/api") ])).
Proof.
  exact (proj1 (select_config_is_envConfig next_prod _ eq_refl)).
Defined.

(** ** Detection of the runtime *)

(** The two detections exclude each other: a runtime that passes the
    browser test is never detected as framework-hosted, because every
    alternative of the framework test needs the [process] global that
    the browser test requires to be absent. A runtime with both a
    [window] and a [process] global is always detected as
    framework-hosted. *)
Theorem isRealBrowser_excludes_isNextJS (a : Ambient) :
  (isRealBrowser a = true -> isNextJS a = false) /\
  (window a = true -> defined (process a) = true -> isNextJS a = true).
Proof.
  unfold isRealBrowser, isNextJS. split.
  - intros H. destruct (process a); [|now rewrite andb_false_r].
    cbn in H. now rewrite andb_false_r in H.
  - intros -> ->. reflexivity.
Qed.

Lemma isRealBrowser_excludes_isNextJS_witness :
  isNextJS browser_page = false /\ isNextJS next_dev_client = true.
Proof.
  destruct (isRealBrowser_excludes_isNextJS browser_page) as [H1 _].
  destruct (isRealBrowser_excludes_isNextJS next_dev_client) as [_ H2].
  split; [exact (H1 eq_refl)|exact (H2 eq_refl eq_refl)].
Defined.

(** The browser configuration is selected exactly when the browser test
    succeeds, that is with [window], [document] and [navigator] present,
    a user agent that does not contain "Node.js", and no [process]
    global. In particular a page in which a [process] global exists
    never gets the browser configuration. *)
Theorem BrowserConfig_iff (a : Ambient) :
  (select_config a = Ok BrowserConfig <-> isRealBrowser a = true) /\
  (isRealBrowser a = true <->
     window a = true /\ document a = true /\
     (exists ua, navigator a = Some ua /\ Js.includes "Node.js" ua = false) /\
     process a = None) /\
  (defined (process a) = true -> select_config a <> Ok BrowserConfig).
Proof.
  assert (Hsel : select_config a = Ok BrowserConfig <-> isRealBrowser a = true).
  { unfold select_config. destruct (isRealBrowser a); [tauto|].
    split; [|discriminate].
    destruct (process_env a) as [e|x]; cbn; [|discriminate].
    destruct (strict_eq _ _); discriminate. }
  assert (Hreal :
    isRealBrowser a = true <->
      window a = true /\ document a = true /\
      (exists ua, navigator a = Some ua /\ Js.includes "Node.js" ua = false) /\
      process a = None).
  { unfold isRealBrowser. rewrite !andb_true_iff. split.
    - intros [[[Hw Hd] Hn] Hp].
      destruct (navigator a) as [ua|]; [|discriminate Hn].
      destruct (process a); [discriminate Hp|].
      repeat split; try assumption.
      exists ua. split; [reflexivity|]. now apply negb_true_iff.
    - intros (Hw & Hd & (ua & Hu & Hn) & Hp).
      rewrite Hw, Hd, Hu, Hp, Hn. now repeat split. }
  split; [exact Hsel|]. split; [exact Hreal|].
  intros Hp Hb. apply Hsel, Hreal in Hb. destruct Hb as (_ & _ & _ & Hnone).
  rewrite Hnone in Hp. discriminate Hp.
Qed.

Lemma BrowserConfig_iff_witness :
  select_config next_dev_client <> Ok BrowserConfig /\
  select_config next_dev_client = Ok DevConfig.
Proof.
  destruct (BrowserConfig_iff next_dev_client) as (_ & _ & H).
  split; [exact (H eq_refl)|reflexivity].
Defined.

(** ** Failures of [createLogger] *)

Lemma level_from_env_is_label (e : Env) (fallback : LogLevel) :
  (forall v, Js.get "LOG_LEVEL" e = Some v ->
             Js.array_includes v Js.Object_prototype_names = false) ->
  exists l, level_from_env e (label fallback) = label l.
Proof.
  intros H. rewrite (level_from_env_cases e _ H).
  destruct (Js.get "LOG_LEVEL" e) as [v|]; [|now exists fallback].
  destruct (Js.array_includes v (Js.keys LOG_LEVELS)) eqn:Hv;
    [|now exists fallback].
  destruct (key_is_label v Hv) as [l ->]. now exists l.
Qed.

(** Take a module whose [LOG_LEVEL] is not the name of a property
    inherited from [Object.prototype], and a [level] argument that is
    absent or one of the eight level names, as its type requires. Then
    the level handed to pino is absent or one of the eight names, and
    [createLogger] raises in two situations only: the browser test fails
    and [process.env] cannot be read (no [process] global, or no [env] on
    it), or the development configuration is selected without a [window]
    global and [createPrettyLogStream()] raises. It passes the exception
    on unchanged. *)
Theorem createLogger_throws_iff (e : Env) (a : Ambient) (nm : string)
    (lvl : option string) (x : Exn) :
  (forall v, Js.get "LOG_LEVEL" e = Some v ->
             Js.array_includes v Js.Object_prototype_names = false) ->
  (lvl = None \/ exists l, lvl = Some (label l)) ->
  (forall ref, exists l,
     match level (with_level (deref (consts_of e) ref) lvl) with
     | Some v => v
     | None => "info"
     end = label l) /\
  (createLogger (consts_of e) a nm lvl = Throw x <->
     (isRealBrowser a = false /\ process_env a = Throw x) \/
     (select_config a = Ok DevConfig /\ window a = false /\
      createPrettyLogStream a = Throw x)).
Proof.
  intros Henv Hlvl. split.
  - intros ref. destruct Hlvl as [->|[l ->]].
    + destruct ref; cbn [level with_level deref consts_of the_devConfig
                          the_prodConfig devConfig prodConfig browserConfig
                          level_or Js.truthy_opt].
      * now exists Info.
      * apply (level_from_env_is_label e Info Henv).
      * apply (level_from_env_is_label e Details Henv).
    + exists l. cbn [level with_level]. unfold level_or.
      cbn [Js.truthy_opt]. now rewrite label_truthy.
  - destruct (select_config a) as [ref|y] eqn:Hsel.
    + rewrite (createLogger_cases _ a nm lvl ref Hsel).
      assert (Hno : ~ (isRealBrowser a = false /\ process_env a = Throw x)).
      { intros [Hb Hp]. unfold select_config in Hsel.
        rewrite Hb, Hp in Hsel. discriminate Hsel. }
      destruct ref, (window a); cbn;
        try (split; [discriminate|];
             intros [H|(H1 & H2 & _)]; [now elim Hno|discriminate]).
      destruct (createPrettyLogStream a) as [s|z].
      * split; [discriminate|].
        intros [H|(_ & _ & H)]; [now elim Hno|discriminate].
      * split.
        -- intros H. injection H as ->. now right.
        -- intros [H|(_ & _ & H)]; [now elim Hno|]. now injection H as ->.
    + unfold createLogger. rewrite Hsel. cbn.
      unfold select_config in Hsel.
      destruct (isRealBrowser a); [discriminate Hsel|].
      destruct (process_env a) as [e'|z]; cbn in Hsel.
      * destruct (strict_eq _ _); discriminate Hsel.
      * injection Hsel as ->. split.
        -- intros H. injection H as ->. now left.
        -- intros [[_ H]|(H & _)]; [now injection H as ->|discriminate H].
Qed.

Lemma createLogger_throws_iff_witness :
  createLogger (consts_of []) node_dev_without_pretty "app" (Some "warn")
    = Throw (Raised "Cannot find module 'pino-pretty'") /\
  createLogger (consts_of []) worker "app" None
    = Throw (ReferenceError "process").
Proof.
  assert (Henv : forall v, Js.get "LOG_LEVEL" ([] : Env) = Some v ->
                   Js.array_includes v Js.Object_prototype_names = false)
    by (intros v Hv; discriminate Hv).
  split.
  - apply (proj2 (createLogger_throws_iff [] node_dev_without_pretty "app"
                    (Some "warn") _ Henv
                    (or_intror (ex_intro _ Warn eq_refl)))).
    right. repeat split.
  - apply (proj2 (createLogger_throws_iff [] worker "app" None _ Henv
                    (or_introl eq_refl))).
    left. split; reflexivity.
Defined.

(** ** Threshold of a logger *)

Lemma built_threshold (K : Consts) (ref : ConfigRef) (lvl : option string)
    (dest : option Stream) (nm : string) :
  threshold (built K ref lvl dest nm) =
    match level_or lvl (level (deref K ref)) with
    | Some s => s
    | None => "info"
    end.
Proof. reflexivity. Qed.

(** A [level] argument of [createLogger] that is one of the eight level
    names becomes the threshold whatever the configuration says, and
    changes nothing else: the logger is built whenever it is built
    without the argument, on the same destination and with the same
    bindings and formatters. An empty [level] is the same call as none. *)
Theorem createLogger_level_override (e : Env) (a : Ambient) (nm : string)
    (lv : LogLevel) (l0 : PinoLogger) :
  createLogger (consts_of e) a nm None = Ok l0 ->
  (exists l, createLogger (consts_of e) a nm (Some (label lv)) = Ok l /\
             threshold l = label lv /\
             levelVal l = Some (weight lv) /\
             destination l = destination l0 /\
             bindings l = bindings l0 /\
             formatters (options l) = formatters (options l0)) /\
  createLogger (consts_of e) a nm (Some EmptyString)
    = createLogger (consts_of e) a nm None.
Proof.
  intros H0. split.
  - destruct (select_config a) as [ref|z] eqn:Hsel;
      [|unfold createLogger in H0; rewrite Hsel in H0; discriminate H0].
    rewrite (createLogger_cases _ a nm None ref Hsel) in H0.
    rewrite (createLogger_cases _ a nm _ ref Hsel).
    assert (Ht : forall dest,
               threshold (built (consts_of e) ref (Some (label lv)) dest nm)
               = label lv).
    { intros dest. rewrite built_threshold. unfold level_or.
      cbn [Js.truthy_opt]. now rewrite label_truthy. }
    assert (Hv : forall dest,
               levelVal (built (consts_of e) ref (Some (label lv)) dest nm)
               = Some (weight lv)).
    { intros dest. unfold levelVal. rewrite Ht.
      assert (Hc : customLevels (options
                     (built (consts_of e) ref (Some (label lv)) dest nm))
                   = Some LOG_LEVELS) by (now destruct ref).
      rewrite Hc. now destruct lv. }
    destruct (ConfigRef_eqb ref DevConfig && negb (window a));
      [destruct (createPrettyLogStream a) as [s|z]; [|discriminate H0]|];
      injection H0 as <-; eexists; (split; [reflexivity|]);
      rewrite Ht, Hv; now repeat split.
  - unfold createLogger. destruct (select_config a); reflexivity.
Qed.

Lemma createLogger_level_override_witness :
  exists l, createLogger (consts_of []) node_dev "app" (Some "error") = Ok l /\
            threshold l = "error".
Proof.
  destruct (createLogger_level_override [] node_dev "app" Error
              _ eq_refl) as [(l & Hl & Ht & _) _].
  exists l. split; assumption.
Defined.

(** The [Logger] constructor never passes a level, so the threshold of
    every logger object is the one of its configuration: the value
    derived from [LOG_LEVEL] with default "details" under development
    and "info" under production, and pino's default "info" under the
    browser configuration, which sets no level and ignores [LOG_LEVEL]. *)
Theorem Logger_threshold (e : Env) (a : Ambient) (cls : Class)
    (nm : string) (ref : ConfigRef) (o : Logger) :
  select_config a = Ok ref ->
  new (consts_of e) a cls nm = Ok o ->
  threshold (logger o) =
    match ref with
    | DevConfig => level_from_env e "details"
    | ProdConfig => level_from_env e "info"
    | BrowserConfig => "info"
    end.
Proof.
  intros Hsel Hnew. unfold new, Logger.constructor in Hnew.
  rewrite (createLogger_cases _ a nm None ref Hsel) in Hnew.
  destruct (ConfigRef_eqb ref DevConfig && negb (window a)).
  - destruct (createPrettyLogStream a) as [s|z]; [|discriminate Hnew].
    cbn in Hnew. injection Hnew as <-. now destruct ref.
  - cbn in Hnew. injection Hnew as <-. now destruct ref.
Qed.

Lemma Logger_threshold_witness :
  exists o, new (consts_of [("LOG_LEVEL", "trace")]) browser_page
              LoggerClass "app" = Ok o /\
            threshold (logger o) = "info".
Proof.
  eexists. split; [reflexivity|].
  exact (Logger_threshold [("LOG_LEVEL", "trace")] browser_page LoggerClass
           "app" BrowserConfig _ eq_refl eq_refl).
Defined.

(** ** Logger objects *)

(** Shape of every logger object that a construction returns. *)
Lemma new_instance (K : Consts) (a : Ambient) (cls : Class) (nm : string)
    (o : Logger) :
  new K a cls nm = Ok o ->
  exists ref dest,
    select_config a = Ok ref /\
    o = instance K a cls ref dest nm /\
    (forall s, dest = Some s <->
               ref = DevConfig /\ window a = false /\
               createPrettyLogStream a = Ok s) /\
    forall cls' nm', new K a cls' nm' = Ok (instance K a cls' ref dest nm').
Proof.
  intros H. unfold new, Logger.constructor in *.
  destruct (select_config a) as [ref|z] eqn:Hsel;
    [|unfold createLogger in H; rewrite Hsel in H; discriminate H].
  rewrite (createLogger_cases K a nm None ref Hsel) in H.
  destruct (ConfigRef_eqb ref DevConfig && negb (window a)) eqn:Hdev.
  - destruct (createPrettyLogStream a) as [s|z] eqn:Hs; [|discriminate H].
    cbn in H. injection H as <-.
    exists ref, (Some s). split; [reflexivity|]. split; [reflexivity|].
    pose proof Hdev as Hcond.
    apply andb_true_iff in Hdev. destruct Hdev as [Hr Hw].
    apply negb_true_iff in Hw. split.
    + intros t. split.
      * intros Ht. injection Ht as <-. destruct ref; try discriminate Hr.
        now repeat split.
      * intros (_ & _ & Ht). congruence.
    + intros cls' nm'.
      rewrite (createLogger_cases K a nm' None ref Hsel), Hcond, Hs.
      reflexivity.
  - cbn in H. injection H as <-.
    exists ref, None. split; [reflexivity|]. split; [reflexivity|]. split.
    + intros t. split; [discriminate|]. intros (-> & Hw & _).
      rewrite Hw in Hdev. discriminate Hdev.
    + intros cls' nm'.
      rewrite (createLogger_cases K a nm' None ref Hsel), Hdev. reflexivity.
Qed.

(** A constructed logger keeps what it was given: its [name] field is
    the constructor's argument, the same name is bound on its pino child
    and survives the bindings formatter, so it is the name field of every
    record written through it; [isBrowser] records whether a [window]
    global exists. *)
Theorem new_binds_name (e : Env) (a : Ambient) (cls : Class) (nm : string)
    (o : Logger) :
  new (consts_of e) a cls nm = Ok o ->
  class_of o = cls /\
  name o = nm /\
  isBrowser o = window a /\
  prop "name" (bindings (logger o)) = JStr nm /\
  forall l msg rest,
    record_name (record_of {| on_logger := logger o; at_level := l;
                              message := msg; args := rest |}) = JStr nm.
Proof.
  intros H. destruct (new_instance _ a cls nm o H) as (ref & dest & _ & -> & _).
  repeat split.
  intros l msg rest.
  now apply (built_record_name e ref None dest nm).
Qed.

Lemma new_binds_name_witness :
  exists o, new (consts_of []) next_dev_client ColorLoggerClass "ui" = Ok o /\
            name o = "ui" /\ isBrowser o = true.
Proof.
  eexists. split; [reflexivity|].
  destruct (new_binds_name [] next_dev_client ColorLoggerClass "ui" _ eq_refl)
    as (_ & Hn & Hb & _).
  split; [exact Hn|exact Hb].
Defined.

(** A logger writes to the pretty-print stream only when it was built
    under the development configuration in a runtime without [window],
    and then to the very stream the collaborator returned; production
    and browser loggers, and development loggers built where a [window]
    exists, have no destination of their own. *)
Theorem destination_is_pretty_stream (K : Consts) (a : Ambient)
    (cls : Class) (nm : string) (o : Logger) (s : Stream) :
  new K a cls nm = Ok o ->
  (destination (logger o) = Some s <->
     select_config a = Ok DevConfig /\ window a = false /\
     createPrettyLogStream a = Ok s).
Proof.
  intros H.
  destruct (new_instance K a cls nm o H) as (ref & dest & Hsel & -> & Hd & _).
  cbn [logger instance built child pino destination].
  rewrite Hd, Hsel. split.
  - intros (-> & Hw & Hs). now repeat split.
  - intros (Hr & Hw & Hs). injection Hr as ->. now repeat split.
Qed.

Lemma destination_is_pretty_stream_witness :
  exists o, new (consts_of []) node_dev LoggerClass "app" = Ok o /\
            destination (logger o) = Some "pino-pretty".
Proof.
  eexists. split; [reflexivity|].
  apply (destination_is_pretty_stream (consts_of []) node_dev LoggerClass
           "app" _ "pino-pretty" eq_refl).
  repeat split.
Defined.

(** ** Methods *)

(** Each of the eight severity methods, on a [Logger] or a
    [ColorLogger], returns nothing and makes exactly one call on the
    pino logger of the receiver: the pino method of the same name, with
    the message and the arguments unchanged, after everything that was
    logged before. *)
Theorem severity_method_forwards (K : Consts) (a : Ambient) (self : Logger)
    (l : LogLevel) (m : string) (rest : list JsValue) (w : World) :
  exists w',
    invoke K a self (Severity l) m rest w = Ok (Void, w') /\
    calls w' = (calls w ++ [ {| on_logger := logger self; at_level := l;
                                message := m; args := rest |} ])%list.
Proof.
  rewrite invoke_severity. eexists. split; [reflexivity|].
  destruct l; try reflexivity.
  unfold Logger.critical. now destruct (Js.truthy_opt (slackWebhookUrl K)).
Qed.

(** No method of the public surface attempts a delivery to the alert
    channel, [critical] included, and none but [critical] with an
    address configured builds a payload. *)
Theorem invoke_never_delivers (K : Consts) (a : Ambient) (self : Logger)
    (m : Method) (first : string) (rest : list JsValue) (w w' : World)
    (r : Returned) :
  invoke K a self m first rest w = Ok (r, w') ->
  dispatches w' = dispatches w /\
  (m <> Severity Critical \/ Js.truthy_opt (slackWebhookUrl K) = false ->
   payloads w' = payloads w).
Proof.
  intros H. destruct m as [l|].
  - rewrite invoke_severity in H. injection H as _ <-.
    unfold Logger.critical.
    destruct l; try (split; [reflexivity|]; intros _; reflexivity).
    destruct (Js.truthy_opt (slackWebhookUrl K)).
    + split; [reflexivity|]. intros [Hm|Hu]; [now elim Hm|discriminate Hu].
    + split; [reflexivity|]. intros _. reflexivity.
  - unfold invoke in H.
    assert (Hl : lookup_method (prototype_chain (class_of self)) Extend
                 = Logger_prototype Extend) by (now destruct (class_of self)).
    rewrite Hl in H. cbn in H.
    destruct (Logger.extend K a self first); [|discriminate H].
    cbn in H. injection H as _ <-. split; [reflexivity|]. intros _. reflexivity.
Qed.

Lemma invoke_never_delivers_witness :
  dispatches (Logger.critical alerting (app_logger alerting) "down" []
                empty_world) = [].
Proof.
  refine (proj1 (invoke_never_delivers alerting node_prod
                   (app_logger alerting) (Severity Critical) "down" []
                   empty_world _ Void _)).
  reflexivity.
Defined.

(** The alert address is configured exactly when [SLACK_WEBHOOK_URL] is
    set to a non-empty string; when it is unset or empty, [critical]
    does what the other severity methods do and nothing more. *)
Theorem critical_without_address (e : Env) (self : Logger) (m : string)
    (rest : list JsValue) (w : World) (u : string) :
  (slackWebhookUrl (consts_of e) = Some u <->
     Js.get "SLACK_WEBHOOK_URL" e = Some u /\ Js.truthy u = true) /\
  (Js.truthy_opt (Js.get "SLACK_WEBHOOK_URL" e) = false ->
     Logger.critical (consts_of e) self m rest w
       = Logger.emit self Critical m rest w).
Proof.
  split.
  - cbn [slackWebhookUrl consts_of].
    destruct (Js.get "SLACK_WEBHOOK_URL" e) as [v|]; cbn.
    + destruct (Js.truthy v) eqn:Hv.
      * split; [intros H; injection H as ->; now split|now intros [H _]].
      * split; [discriminate|]. intros [H Hu]. injection H as ->. congruence.
    + split; [discriminate|now intros [H _]].
  - intros H. unfold Logger.critical. cbn [slackWebhookUrl consts_of].
    destruct (Js.get "SLACK_WEBHOOK_URL" e) as [v|]; [|reflexivity].
    cbn in H. now rewrite H.
Qed.

Lemma critical_without_address_witness :
  payloads (Logger.critical (consts_of [("SLACK_WEBHOOK_URL", EmptyString)])
              (app_logger alerting) "down" [] empty_world) = [].
Proof.
  rewrite (proj2 (critical_without_address [("SLACK_WEBHOOK_URL", EmptyString)]
                    (app_logger alerting) "down" [] empty_world EmptyString)
             eq_refl).
  reflexivity.
Defined.

(** ** [extend] *)

Lemma extend_name_differs (n sub : string) : n ++ "." ++ sub <> n.
Proof.
  intros H. apply (f_equal String.length) in H.
  rewrite length_append in H. cbn in H. lia.
Qed.

(** [extend], called on a [Logger] or on a [ColorLogger] that was built
    in the same runtime, always succeeds, logs nothing and returns a plain
    [Logger], never a [ColorLogger]. The new logger has the name
    "<parent>.<subname>", which is never the parent's name (nothing
    validates the subname: an empty one gives "<parent>."), and the same
    options, threshold and destination as its parent. *)
Theorem extend_from_any_class (K : Consts) (a : Ambient) (cls : Class)
    (nm sub : string) (self : Logger) (rest : list JsValue) (w : World) :
  new K a cls nm = Ok self ->
  exists o,
    invoke K a self Extend sub rest w = Ok (Instance o, w) /\
    class_of o = LoggerClass /\
    name o = nm ++ "." ++ sub /\
    name o <> name self /\
    options (logger o) = options (logger self) /\
    threshold (logger o) = threshold (logger self) /\
    destination (logger o) = destination (logger self) /\
    isBrowser o = isBrowser self.
Proof.
  intros H.
  destruct (new_instance K a cls nm self H) as (ref & dest & _ & -> & _ & Hall).
  exists (instance K a LoggerClass ref dest (nm ++ "." ++ sub)).
  split.
  - unfold invoke.
    assert (Hl : lookup_method (prototype_chain cls) Extend
                 = Logger_prototype Extend) by (now destruct cls).
    cbn [class_of instance]. rewrite Hl. cbn [Logger_prototype].
    rewrite extend_is_new. cbn [name instance]. now rewrite Hall.
  - repeat split. cbn [name instance]. apply extend_name_differs.
Qed.

Lemma extend_from_any_class_witness :
  exists self o,
    new (consts_of []) node_dev ColorLoggerClass "ui" = Ok self /\
    invoke (consts_of []) node_dev self Extend "menu" [] empty_world
      = Ok (Instance o, empty_world) /\
    class_of o = LoggerClass /\
    name o = "ui.menu".
Proof.
  eexists.
  destruct (extend_from_any_class (consts_of []) node_dev ColorLoggerClass
              "ui" "menu" _ [] empty_world eq_refl)
    as (o & Hi & Hc & Hn & _).
  exists o. split; [reflexivity|]. repeat split; assumption.
Defined.

(** Extending twice is extending once by the dot-joined subnames:
    [l.extend(x).extend(y)] and [l.extend(x + "." + y)] are the same
    logger. *)
Theorem extend_extend (K : Consts) (a : Ambient) (root lx : Logger)
    (x y : string) :
  Logger.extend K a root x = Ok lx ->
  Logger.extend K a lx y = Logger.extend K a root (x ++ "." ++ y).
Proof.
  intros H.
  assert (Hname : name lx = name root ++ "." ++ x).
  { unfold Logger.extend, Logger.constructor in H.
    destruct (createLogger K a (name root ++ "." ++ x) None) as [l|z];
      [|discriminate H].
    injection H as <-. reflexivity. }
  assert (E : (name root ++ "." ++ x) ++ "." ++ y
              = name root ++ "." ++ x ++ "." ++ y)
    by (rewrite append_assoc; reflexivity).
  unfold Logger.extend. now rewrite Hname, E.
Qed.

Lemma extend_extend_witness :
  exists lx,
    Logger.extend alerting node_prod (app_logger alerting) "db" = Ok lx /\
    Logger.extend alerting node_prod lx "pool"
      = Logger.extend alerting node_prod (app_logger alerting) "db.pool".
Proof.
  eexists. split; [reflexivity|].
  exact (extend_extend alerting node_prod (app_logger alerting) _
           "db" "pool" eq_refl).
Defined.

(** ** The threshold gate *)

Lemma LOG_LEVELS_bounds (s : string) (t : Z) :
  Js.get s LOG_LEVELS = Some t -> 10 <= t <= 60.
Proof.
  cbn. intros H.
  repeat match type of H with
         | (if ?c then _ else _) = _ =>
             destruct c; [injection H as <-; lia|]
         end.
  discriminate H.
Qed.

(** Every logger object carries the table [LOG_LEVELS] as its custom
    levels, whatever its configuration. So a threshold that has a weight
    has one between 10 and 60, [critical] records always pass it, and
    the gate is monotone: a level that passes lets every heavier level
    pass. *)
Theorem critical_always_enabled (e : Env) (a : Ambient) (cls : Class)
    (nm : string) (o : Logger) (t : Z) :
  new (consts_of e) a cls nm = Ok o ->
  levelVal (logger o) = Some t ->
  customLevels (options (logger o)) = Some LOG_LEVELS /\
  10 <= t <= 60 /\
  isLevelEnabled (logger o) Critical = true /\
  forall l l', isLevelEnabled (logger o) l = true ->
               weight l <= weight l' ->
               isLevelEnabled (logger o) l' = true.
Proof.
  intros H Ht.
  destruct (new_instance _ a cls nm o H) as (ref & dest & _ & -> & _).
  assert (Hc : customLevels (options (logger
                 (instance (consts_of e) a cls ref dest nm)))
               = Some LOG_LEVELS) by (now destruct ref).
  assert (Hb : 10 <= t <= 60).
  { unfold levelVal in Ht. rewrite Hc in Ht.
    now apply (LOG_LEVELS_bounds _ t Ht). }
  split; [exact Hc|]. split; [exact Hb|].
  unfold isLevelEnabled. rewrite Ht. split.
  - apply Z.leb_le. cbn. lia.
  - intros l l' Hl Hw. apply Z.leb_le in Hl. apply Z.leb_le. lia.
Qed.

Lemma critical_always_enabled_witness :
  exists o, new (consts_of [("LOG_LEVEL", "critical")]) node_dev
              LoggerClass "app" = Ok o /\
            isLevelEnabled (logger o) Critical = true /\
            isLevelEnabled (logger o) Error = false.
Proof.
  eexists. split; [reflexivity|].
  destruct (critical_always_enabled [("LOG_LEVEL", "critical")] node_dev
              LoggerClass "app" _ 60 eq_refl eq_refl) as (_ & _ & Hc & _).
  split; [exact Hc|reflexivity].
Defined.

(** ** Evaluation of the modules *)

(** The run of [module_load] when it completes. *)
Lemma module_load_run (a : Ambient) (e : Env) :
  process_env a = Ok e ->
  (window a = true \/
   strict_eq (Js.get "NODE_ENV" e) "production" = true \/
   exists s, createPrettyLogStream a = Ok s) ->
  exists ref dest,
    (forall K nm, createLogger K a nm None = Ok (built K ref None dest nm)) /\
    let K := consts_of e in
    let app := instance K a LoggerClass ref dest "app" in
    module_load a =
      Ok (K, app,
          {| calls := load_trace (built K ref None dest "app")
                        (built K ref None dest "app.submodule");
             payloads :=
               if Js.truthy_opt (slackWebhookUrl K)
               then [Logger.slackMessage app "This is a critical log message" []]
               else [];
             dispatches := [] |}).
Proof.
  intros He Hc.
  destruct (createLogger_succeeds a e He Hc) as (ref & dest & Hmk).
  exists ref, dest. split; [exact Hmk|]. cbn zeta.
  unfold module_load, load_consts. rewrite He. cbn [Js.bind].
  unfold new, Logger.extend, Logger.constructor.
  rewrite Hmk. cbn [Js.bind name]. rewrite Hmk. cbn [Js.bind].
  unfold Logger.critical.
  now destruct (Js.truthy_opt (slackWebhookUrl (consts_of e))).
Qed.

(** The module needs a [process] global to be evaluated at all: without
    one its evaluation raises a ReferenceError, in a browser page too.
    Hence whenever the evaluation completes, the default instance was
    not built on the browser configuration, and its configuration is the
    one [envConfig] names. *)
Theorem module_load_needs_process (a : Ambient) (K : Consts) (lg : Logger)
    (w : World) :
  (process a = None -> module_load a = Throw (ReferenceError "process")) /\
  (module_load a = Ok (K, lg, w) ->
     exists e, process_env a = Ok e /\
               K = consts_of e /\
               isRealBrowser a = false /\
               select_config a = Ok (envConfig K) /\
               envConfig K <> BrowserConfig).
Proof.
  split.
  - intros H. unfold module_load, load_consts, process_env. now rewrite H.
  - intros H. unfold module_load, load_consts in H.
    destruct (process_env a) as [e|z] eqn:He; [|discriminate H].
    cbn [Js.bind] in H.
    destruct (new (consts_of e) a LoggerClass "app") as [o|z];
      [|discriminate H].
    cbn [Js.bind] in H.
    destruct (Logger.extend (consts_of e) a o "submodule") as [o'|z];
      [|discriminate H].
    cbn [Js.bind] in H. injection H as <- _ _.
    exists e. split; [reflexivity|]. split; [reflexivity|].
    split; [now apply (process_env_defined a e)|]. split.
    + now apply select_config_precedence.
    + cbn [envConfig consts_of]. destruct (strict_eq _ _); discriminate.
Qed.

Lemma module_load_needs_process_witness :
  module_load browser_page = Throw (ReferenceError "process") /\
  exists e, process_env node_prod = Ok e /\
            select_config node_prod = Ok (envConfig (consts_of e)).
Proof.
  split.
  - exact (proj1 (module_load_needs_process browser_page alerting
                    (app_logger alerting) empty_world) eq_refl).
  - destruct (proj2 (module_load_needs_process node_prod _ _ _) eq_refl)
      as (e & He & HK & _ & Hsel & _).
    exists e. split; [exact He|]. rewrite <- HK. exact Hsel.
Defined.

(** Evaluating the module with an alert address configured builds one
    alert payload, for the demonstration [critical] call: its title is
    "[app] CRITICAL: This is a critical log message" and its detail
    "No additional context". Without an address it builds none. In both
    cases nothing is delivered. *)
Theorem module_load_alert_payload (a : Ambient) (e : Env) :
  process_env a = Ok e ->
  (window a = true \/
   strict_eq (Js.get "NODE_ENV" e) "production" = true \/
   exists s, createPrettyLogStream a = Ok s) ->
  exists lg w,
    module_load a = Ok (consts_of e, lg, w) /\
    dispatches w = [] /\
    payloads w =
      if Js.truthy_opt (Js.get "SLACK_WEBHOOK_URL" e)
      then [ {| text := "[app] CRITICAL: This is a critical log message";
                attachments :=
                  [ {| attachment_text := "No additional context";
                       color := "danger" |} ] |} ]
      else [].
Proof.
  intros He Hc.
  destruct (module_load_run a e He Hc) as (ref & dest & _ & Hrun).
  cbn zeta in Hrun. rewrite Hrun. do 2 eexists.
  split; [reflexivity|]. split; [reflexivity|].
  cbn [payloads slackWebhookUrl consts_of].
  destruct (Js.get "SLACK_WEBHOOK_URL" e) as [u|]; [|reflexivity].
  cbn [Js.truthy_opt].
  destruct (Js.truthy u) eqn:Hu; cbn [Js.truthy_opt]; rewrite ?Hu; reflexivity.
Qed.

Lemma module_load_alert_payload_witness :
  exists lg w,
    module_load node_prod = Ok (consts_of [("NODE_ENV", "production")], lg, w) /\
    dispatches w = [] /\ payloads w = [].
Proof.
  exact (module_load_alert_payload node_prod [("NODE_ENV", "production")]
           eq_refl (or_intror (or_introl eq_refl))).
Defined.

(** Starting the application evaluates the logging module first, so the
    nine demonstration calls precede everything the application logs:
    the first call of the page shell, "Starting app server" on the logger
    "App", is the tenth call. [SomeButton] builds its logger in between
    and logs nothing until it renders. *)
Theorem startup_calls (a : Ambient) (e : Env) :
  process_env a = Ok e ->
  (window a = true \/
   strict_eq (Js.get "NODE_ENV" e) "production" = true \/
   exists s, createPrettyLogStream a = Ok s) ->
  exists button app w,
    startup a = Ok (consts_of e, button, app, w) /\
    name button = "SomeButton" /\
    name app = "App" /\
    map summary (calls w)
      = (load_calls ++ [(JStr "App", Info, "Starting app server", [])])%list.
Proof.
  intros He Hc.
  destruct (module_load_run a e He Hc) as (ref & dest & Hmk & Hrun).
  cbn zeta in Hrun. unfold startup. rewrite Hrun. cbn [Js.bind].
  unfold SomeButton.load, App.load, new, Logger.constructor.
  rewrite !Hmk. cbn [Js.bind].
  do 3 eexists. split; [reflexivity|]. repeat split.
Qed.

Lemma startup_calls_witness :
  exists button app w,
    startup node_dev = Ok (consts_of [], button, app, w) /\
    List.length (calls w) = 10%nat.
Proof.
  destruct (startup_calls node_dev [] eq_refl
              (or_intror (or_intror (ex_intro _ "pino-pretty" eq_refl))))
    as (button & app & w & Hs & _ & _ & Hc).
  exists button, app, w. split; [exact Hs|].
  rewrite <- (length_map summary), Hc. reflexivity.
Defined.

(** The consumers log at [info] only. A render of the page shell or of
    the button makes exactly one [info] call on its own logger, the page
    shell's with the component name and the page properties as its single
    argument. The call passes the gate exactly when the threshold weight
    is at most 35: it then adds one record, named after its logger, and
    otherwise leaves the sink untouched. A render never builds an alert
    payload. *)
Theorem consumers_log_at_info (e : Env) (a : Ambient) (app button : Logger)
    (t : Z) (component : string) (pageProps : JsValue) (w : World) :
  new (consts_of e) a LoggerClass "App" = Ok app ->
  new (consts_of e) a LoggerClass "SomeButton" = Ok button ->
  levelVal (logger app) = Some t ->
  let shell :=
    {| on_logger := logger app; at_level := Info;
       message := "rendering page";
       args := [ JObj [ ("component", JStr component);
                        ("pageProps", pageProps) ] ] |} in
  let click :=
    {| on_logger := logger button; at_level := Info;
       message := "Rendering component"; args := [] |} in
  calls (App.render app component pageProps w) = (calls w ++ [shell])%list /\
  calls (SomeButton.render button w) = (calls w ++ [click])%list /\
  enabled shell = (t <=? 35) /\
  enabled click = (t <=? 35) /\
  written (App.render app component pageProps w)
    = (written w ++ if t <=? 35 then [record_of shell] else [])%list /\
  written (SomeButton.render button w)
    = (written w ++ if t <=? 35 then [record_of click] else [])%list /\
  record_name (record_of shell) = JStr "App" /\
  record_name (record_of click) = JStr "SomeButton" /\
  payloads (App.render app component pageProps w) = payloads w /\
  payloads (SomeButton.render button w) = payloads w.
Proof.
  intros Ha Hb Ht.
  destruct (new_instance _ a _ _ app Ha) as (ref & dest & Hsel & -> & _).
  destruct (new_instance _ a _ _ button Hb) as (ref' & dest' & Hsel' & -> & _).
  assert (ref' = ref) as -> by congruence.
  assert (Ht' : levelVal (logger (instance (consts_of e) a LoggerClass ref
                                    dest' "SomeButton")) = Some t)
    by exact Ht.
  cbn zeta. unfold App.render, SomeButton.render, Logger.info.
  rewrite !written_emit. unfold enabled, isLevelEnabled.
  cbn [on_logger at_level]. rewrite Ht, Ht'. change (weight Info) with 35.
  repeat split.
  - now apply (built_record_name e ref None dest "App").
  - now apply (built_record_name e ref None dest' "SomeButton").
Qed.

Lemma consumers_log_at_info_witness :
  (exists app button,
     new (consts_of [("NODE_ENV", "production"); ("LOG_LEVEL", "warn")])
       node_warn LoggerClass "App" = Ok app /\
     written (App.render app "Home" (JObj []) empty_world) = [] /\
     written (SomeButton.render button empty_world) = []) /\
  (exists app,
     new (consts_of [("NODE_ENV", "production")]) node_prod
       LoggerClass "App" = Ok app /\
     map record_name (written (App.render app "Home" (JObj []) empty_world))
       = [JStr "App"]).
Proof.
  split.
  - do 2 eexists. split; [reflexivity|].
    destruct (consumers_log_at_info
                [("NODE_ENV", "production"); ("LOG_LEVEL", "warn")]
                node_warn _ _ 40 "Home" (JObj []) empty_world
                eq_refl eq_refl eq_refl)
      as (_ & _ & _ & _ & H1 & H2 & _).
    split; [exact H1|exact H2].
  - eexists. split; [reflexivity|].
    destruct (consumers_log_at_info [("NODE_ENV", "production")]
                node_prod _ _ 35 "Home" (JObj []) empty_world
                eq_refl eq_refl eq_refl)
      as (_ & _ & _ & _ & H1 & _ & Hn & _).
    rewrite H1. cbn [Z.leb Z.compare Pos.compare Pos.compare_cont written
                     calls empty_world filter map app].
    now rewrite Hn.
Defined.
